(** * pygui: a fiber reconciler for pygfx scenes

    A shallow embedding of [pygui/__init__.py]: the element factory
    [create_element], the host-property differ [update_dom] and the
    [PyGui] engine (render requests, the time-sliced work loop, the
    reconciler, hooks and the commit phase), followed by the properties
    of the engine stated in the design notes of the repository. *)

From Stdlib Require Import ZArith Ascii Lia.
From stdpp Require Import base option list strings.


(** ** Python values and dictionaries *)

(** The values that occur as properties and as hook state.  Functions
    (event handlers) compare by identity, hence a name. *)
Inductive value :=
| VNone
| VInt (z : Z)
| VStr (s : string)
| VFun (id : nat).

#[global] Instance value_eq_dec : EqDecision value.
Proof. solve_decision. Defined.

(** A [dict] keeps insertion order, so it is an association list. *)
Abbreviation dict := (list (string * value)).

Fixpoint dict_lookup (k : string) (d : dict) : option value :=
  match d with
  | [] => None
  | (k', v) :: d' => if String.eqb k' k then Some v else dict_lookup k d'
  end.

(** [d.get(k)], with the default [None]. *)
Definition dict_get (d : dict) (k : string) : value :=
  default VNone (dict_lookup k d).

(** [k in d] *)
Definition dict_mem (k : string) (d : dict) : bool :=
  bool_decide (is_Some (dict_lookup k d)).

(** [d.pop(k)] for a key that is present: the entry leaves the dict. *)
Fixpoint dict_remove (k : string) (d : dict) : dict :=
  match d with
  | [] => []
  | (k', v) :: d' =>
      if String.eqb k' k then dict_remove k d' else (k', v) :: dict_remove k d'
  end.

(** [str.lower] on ASCII text and the slice [s[2:]]. *)
Definition lower_ascii (c : ascii) : ascii :=
  let n := nat_of_ascii c in
  if (65 <=? n)%nat && (n <=? 90)%nat then ascii_of_nat (n + 32) else c.

Fixpoint lower (s : string) : string :=
  match s with
  | EmptyString => EmptyString
  | String c s' => String (lower_ascii c) (lower s')
  end.

Fixpoint slice_from (n : nat) (s : string) : string :=
  match n, s with
  | O, _ => s
  | S n', String _ s' => slice_from n' s'
  | S _, EmptyString => EmptyString
  end.

(** ** The host scene *)

(** Host objects are known by identity only: the container handed to
    [render], and the objects made by [pygfx_renderer.create_element]. *)
Inductive handle :=
| Container (n : nat)
| Node (n : nat).

#[global] Instance handle_eq_dec : EqDecision handle.
Proof. solve_decision. Defined.

Inductive vtype :=
| Tag (s : string)
| Comp (c : nat).

#[global] Instance vtype_eq_dec : EqDecision vtype.
Proof. solve_decision. Defined.

(** Every call the engine makes on the scene, in the order it makes it. *)
Inductive op :=
| CreateElement (dom : handle) (t : vtype)
| Add (parent child : handle)
| Remove (parent child : handle)
| SetAttribute (dom : handle) (key : string) (val : value)
| ClearAttribute (dom : handle) (key : string) (val : value)
| AddEventHandler (dom : handle) (event_type : string) (val : value)
| RemoveEventHandler (dom : handle) (event_type : string) (val : value).

#[global] Instance op_eq_dec : EqDecision op.
Proof. solve_decision. Defined.

(** ** [update_dom] *)

Definition is_event (key : string) : bool := String.prefix "on" key.
Definition is_property (key : string) : bool := negb (is_event key).

(** [val != other.get(key)] *)
Definition is_new (val : value) (other : dict) (key : string) : bool :=
  negb (bool_decide (val = dict_get other key)).

Definition event_type_of (name : string) : string := slice_from 2 (lower name).

(** The four loops of [update_dom], each as the calls it makes. *)
Definition remove_old_listeners (dom : handle) (prev_props next_props : dict)
  : list op :=
  flat_map (fun '(name, val) =>
    if negb (is_event name) then []
    else if negb (dict_mem name next_props) || negb (is_new val next_props name)
         then []
         else [RemoveEventHandler dom (event_type_of name) val]) prev_props.

Definition remove_old_properties (dom : handle) (prev_props next_props : dict)
  : list op :=
  flat_map (fun '(key, val) =>
    if negb (is_property key) then []
    else if dict_mem key next_props then []
         else [ClearAttribute dom key val]) prev_props.

Definition set_new_properties (dom : handle) (prev_props next_props : dict)
  : list op :=
  flat_map (fun '(key, val) =>
    if negb (is_property key) then []
    else if negb (is_new val prev_props key) then []
         else [SetAttribute dom key val]) next_props.

Definition add_new_listeners (dom : handle) (prev_props next_props : dict)
  : list op :=
  flat_map (fun '(name, val) =>
    if negb (is_event name) then []
    else if negb (is_new (dict_get prev_props name) next_props name) then []
         else [AddEventHandler dom (event_type_of name) val]) next_props.

Definition update_dom (dom : handle) (prev_props next_props : dict) : list op :=
  remove_old_listeners dom prev_props next_props
  ++ remove_old_properties dom prev_props next_props
  ++ set_new_properties dom prev_props next_props
  ++ add_new_listeners dom prev_props next_props.

(** ** Virtual nodes and [create_element] *)

(** [P] is what a node holds as its props: a reference to the caller's
    dict where object identity matters ([Element] below), the dict
    itself in the engine, which only reads it. *)
#[warnings="-register-all"]
Inductive VNode (P : Type) := mkVNode {
  type : vtype;
  props : P;
  children : list (VNode P);
  key : option value
}.
Arguments mkVNode {P} _ _ _ _.
Arguments type {P} _.
Arguments props {P} _.
Arguments children {P} _.
Arguments key {P} _.

Module Element.

(** [create_element(type, props, *children)].  The dicts alive in the
    program of the caller are in a store and known by their address;
    [props] is [None] or the address of a dict.  The result is the
    node and the store after the call; [props or {}] makes a new dict
    at the end of the store when [props] is [None] or empty. *)
Definition create_element (t : vtype) (props : option nat)
    (children : list (VNode nat)) (st : list dict)
  : option (VNode nat * list dict) :=
  match props with
  | None => Some (mkVNode t (List.length st) children None, st ++ [[]])
  | Some r =>
      d ← st !! r;
      let popped := negb (bool_decide (d = [])) && dict_mem "key" d in
      let key := if popped then dict_lookup "key" d else None in
      let d' := if popped then dict_remove "key" d else d in
      let st' := <[r := d']> st in
      if bool_decide (d' = [])
      then Some (mkVNode t (List.length st') children key, st' ++ [[]])
      else Some (mkVNode t r children key, st')
  end.

End Element.

(** ** Results of calls that may raise *)

(** The exceptions the engine can run into.  [BadRef] stands for a
    reference outside the arena below; no Python object is one. *)
Inductive exn := IndexError | KeyError | AttributeError | TypeError | BadRef.

(** A call returns, raises, or is still running when the bound on the
    number of loop iterations and nested calls is used up. *)
Inductive res (A : Type) :=
| Ok (a : A)
| Raise (e : exn)
| OutOfFuel.
Arguments Ok {A} _.
Arguments Raise {A} _.
Arguments OutOfFuel {A}.

#[global] Instance res_ret : MRet res := fun A a => Ok a.
#[global] Instance res_bind : MBind res := fun A B f m =>
  match m with
  | Ok a => f a
  | Raise e => Raise e
  | OutOfFuel => OutOfFuel
  end.

Definition or_raise {A} (e : exn) (o : option A) : res A :=
  match o with
  | Some a => Ok a
  | None => Raise e
  end.

(** ** Fibers *)

Inductive EffectTag := UPDATE | PLACEMENT | DELETION.

#[global] Instance EffectTag_eq_dec : EqDecision EffectTag.
Proof. solve_decision. Defined.

(** Fibers are dicts that point at each other and are updated in place:
    they live in an arena and are known by their index in it. *)
Abbreviation ref := nat (only parsing).

Record hook := mkHook {
  state : value;
  queue : list (value -> value);
  watcher : nat
}.

(** A fiber, one field per key.  A key that is absent reads as [None]
    through [.get]; [f_type] is absent on root fibers only, [f_child],
    [f_sibling] and [f_hooks] until they are first assigned. *)
Record fiber := mkFiber {
  f_type : option vtype;
  f_props : dict;
  f_children : list (VNode dict);
  f_dom : option handle;
  f_parent : option ref;
  f_alternate : option ref;
  f_effect_tag : option EffectTag;
  f_child : option ref;
  f_sibling : option ref;
  f_hooks : option (list hook)
}.

Definition set_dom (d : option handle) (f : fiber) : fiber :=
  mkFiber (f_type f) (f_props f) (f_children f) d (f_parent f)
    (f_alternate f) (f_effect_tag f) (f_child f) (f_sibling f) (f_hooks f).
Definition set_effect_tag (t : option EffectTag) (f : fiber) : fiber :=
  mkFiber (f_type f) (f_props f) (f_children f) (f_dom f) (f_parent f)
    (f_alternate f) t (f_child f) (f_sibling f) (f_hooks f).
Definition set_child (c : option ref) (f : fiber) : fiber :=
  mkFiber (f_type f) (f_props f) (f_children f) (f_dom f) (f_parent f)
    (f_alternate f) (f_effect_tag f) c (f_sibling f) (f_hooks f).
Definition set_sibling (c : option ref) (f : fiber) : fiber :=
  mkFiber (f_type f) (f_props f) (f_children f) (f_dom f) (f_parent f)
    (f_alternate f) (f_effect_tag f) (f_child f) c (f_hooks f).
Definition set_hooks (h : option (list hook)) (f : fiber) : fiber :=
  mkFiber (f_type f) (f_props f) (f_children f) (f_dom f) (f_parent f)
    (f_alternate f) (f_effect_tag f) (f_child f) (f_sibling f) h.

(** What a function component does when called: it asks for state any
    number of times, each answer deciding how it goes on, and returns
    one element. *)
Inductive comp :=
| Return (v : VNode dict)
| UseState (initial : value) (k : value -> comp).

(** ** The engine *)

(** The attributes of a [PyGui] object, the arena of its fibers, and
    what it shares with its collaborators: the calls made on the scene
    ([host], [next_handle]), the subscriptions handed out by [watch]
    ([watchers]: one entry per subscription, [true] while it is live),
    the number of clock readings taken ([ticks]) and the completion
    callbacks invoked ([called]).  [qt_timer] is the single-shot timer:
    the deadline bound in the connected callback and whether the timer
    is running.  [deletions] starts as the empty list: the [None] of
    [__init__] is replaced before the list is first read. *)
Record PyGui := mkPyGui {
  heap : list fiber;
  next_unit_of_work : option ref;
  current_root : option ref;
  wip_root : option ref;
  deletions : list ref;
  wip_fiber : option ref;
  hook_index : option nat;
  qt_timer : option (Z * bool);
  render_callback : option nat;
  host : list op;
  next_handle : nat;
  watchers : list bool;
  ticks : nat;
  called : list nat
}.

Definition init : PyGui :=
  mkPyGui [] None None None [] None None None None [] 0 [] 0 [].

Definition set_heap (x : list fiber) (s : PyGui) : PyGui :=
  mkPyGui x (next_unit_of_work s) (current_root s) (wip_root s) (deletions s)
    (wip_fiber s) (hook_index s) (qt_timer s) (render_callback s) (host s)
    (next_handle s) (watchers s) (ticks s) (called s).
Definition set_next_unit_of_work (x : option ref) (s : PyGui) : PyGui :=
  mkPyGui (heap s) x (current_root s) (wip_root s) (deletions s)
    (wip_fiber s) (hook_index s) (qt_timer s) (render_callback s) (host s)
    (next_handle s) (watchers s) (ticks s) (called s).
Definition set_current_root (x : option ref) (s : PyGui) : PyGui :=
  mkPyGui (heap s) (next_unit_of_work s) x (wip_root s) (deletions s)
    (wip_fiber s) (hook_index s) (qt_timer s) (render_callback s) (host s)
    (next_handle s) (watchers s) (ticks s) (called s).
Definition set_wip_root (x : option ref) (s : PyGui) : PyGui :=
  mkPyGui (heap s) (next_unit_of_work s) (current_root s) x (deletions s)
    (wip_fiber s) (hook_index s) (qt_timer s) (render_callback s) (host s)
    (next_handle s) (watchers s) (ticks s) (called s).
Definition set_deletions (x : list ref) (s : PyGui) : PyGui :=
  mkPyGui (heap s) (next_unit_of_work s) (current_root s) (wip_root s) x
    (wip_fiber s) (hook_index s) (qt_timer s) (render_callback s) (host s)
    (next_handle s) (watchers s) (ticks s) (called s).
Definition set_wip_fiber (x : option ref) (s : PyGui) : PyGui :=
  mkPyGui (heap s) (next_unit_of_work s) (current_root s) (wip_root s)
    (deletions s) x (hook_index s) (qt_timer s) (render_callback s) (host s)
    (next_handle s) (watchers s) (ticks s) (called s).
Definition set_hook_index (x : option nat) (s : PyGui) : PyGui :=
  mkPyGui (heap s) (next_unit_of_work s) (current_root s) (wip_root s)
    (deletions s) (wip_fiber s) x (qt_timer s) (render_callback s) (host s)
    (next_handle s) (watchers s) (ticks s) (called s).
Definition set_qt_timer (x : option (Z * bool)) (s : PyGui) : PyGui :=
  mkPyGui (heap s) (next_unit_of_work s) (current_root s) (wip_root s)
    (deletions s) (wip_fiber s) (hook_index s) x (render_callback s) (host s)
    (next_handle s) (watchers s) (ticks s) (called s).
Definition set_render_callback (x : option nat) (s : PyGui) : PyGui :=
  mkPyGui (heap s) (next_unit_of_work s) (current_root s) (wip_root s)
    (deletions s) (wip_fiber s) (hook_index s) (qt_timer s) x (host s)
    (next_handle s) (watchers s) (ticks s) (called s).
Definition set_host (x : list op) (s : PyGui) : PyGui :=
  mkPyGui (heap s) (next_unit_of_work s) (current_root s) (wip_root s)
    (deletions s) (wip_fiber s) (hook_index s) (qt_timer s) (render_callback s)
    x (next_handle s) (watchers s) (ticks s) (called s).
Definition set_next_handle (x : nat) (s : PyGui) : PyGui :=
  mkPyGui (heap s) (next_unit_of_work s) (current_root s) (wip_root s)
    (deletions s) (wip_fiber s) (hook_index s) (qt_timer s) (render_callback s)
    (host s) x (watchers s) (ticks s) (called s).
Definition set_watchers (x : list bool) (s : PyGui) : PyGui :=
  mkPyGui (heap s) (next_unit_of_work s) (current_root s) (wip_root s)
    (deletions s) (wip_fiber s) (hook_index s) (qt_timer s) (render_callback s)
    (host s) (next_handle s) x (ticks s) (called s).
Definition set_ticks (x : nat) (s : PyGui) : PyGui :=
  mkPyGui (heap s) (next_unit_of_work s) (current_root s) (wip_root s)
    (deletions s) (wip_fiber s) (hook_index s) (qt_timer s) (render_callback s)
    (host s) (next_handle s) (watchers s) x (called s).
Definition set_called (x : list nat) (s : PyGui) : PyGui :=
  mkPyGui (heap s) (next_unit_of_work s) (current_root s) (wip_root s)
    (deletions s) (wip_fiber s) (hook_index s) (qt_timer s) (render_callback s)
    (host s) (next_handle s) (watchers s) (ticks s) x.

(** Reading a fiber, updating one in place, and making a new one. *)
Definition get (r : ref) (s : PyGui) : res fiber := or_raise BadRef (heap s !! r).

Definition modify (r : ref) (g : fiber -> fiber) (s : PyGui) : PyGui :=
  set_heap (alter g r (heap s)) s.

Definition alloc (f : fiber) (s : PyGui) : ref * PyGui :=
  (List.length (heap s), set_heap (heap s ++ [f]) s).

(** A call on the scene. *)
Definition emit (ops : list op) (s : PyGui) : PyGui :=
  set_host (host s ++ ops) s.

Section Engine.

(** The function components of the program, by name, and the readings
    of [time.perf_counter_ns], in the order they are taken. *)
Variable components : nat -> dict -> comp.
Variable clock : nat -> Z.

Definition perf_counter_ns (s : PyGui) : Z * PyGui :=
  (clock (ticks s), set_ticks (S (ticks s)) s).

(** [request_idle_work]: the timer is made on first use, any earlier
    callback is disconnected, and the callback that runs
    [work_loop(deadline=deadline)] is connected and the timer
    started.  [if not deadline] also takes the deadline [0] as none. *)
Definition request_idle_work (deadline : option Z) (s : PyGui) : PyGui :=
  let '(deadline, s1) :=
    match deadline with
    | Some d => if (d =? 0)%Z
                then let '(now, s') := perf_counter_ns s in
                     ((now + 1000000 * 16)%Z, s')
                else (d, s)
    | None => let '(now, s') := perf_counter_ns s in
              ((now + 1000000 * 16)%Z, s')
    end in
  set_qt_timer (Some (deadline, true)) s1.

Definition render (element : VNode dict) (container : handle)
    (callback : option nat) (s : PyGui) : PyGui :=
  let '(root, s1) :=
    alloc (mkFiber None [] [element] (Some container) None (current_root s)
             None None None None) s in
  let s2 := set_wip_root (Some root) s1 in
  let s3 := set_deletions [] s2 in
  let s4 := set_next_unit_of_work (wip_root s3) s3 in
  let s5 := set_render_callback callback s4 in
  request_idle_work None s5.

(** The callback of a hook's watcher. *)
Definition state_updated (s : PyGui) : res PyGui :=
  cr ← or_raise AttributeError (current_root s);
  current ← get cr s;
  let '(root, s1) :=
    alloc (mkFiber None (f_props current) (f_children current)
             (f_dom current) None (current_root s) None None None None) s in
  let s2 := set_wip_root (Some root) s1 in
  let s3 := set_next_unit_of_work (wip_root s2) s2 in
  let s4 := set_deletions [] s3 in
  Ok (request_idle_work None s4).

(** [watch(...)] of the reactive library: a new live subscription. *)
Definition watch (s : PyGui) : nat * PyGui :=
  (List.length (watchers s), set_watchers (watchers s ++ [true]) s).

(** The [and] chain that looks for the hook of the previous render. *)
Definition old_hook_of (fiber : fiber) (index : option nat) (s : PyGui)
  : res (option hook) :=
  match f_alternate fiber with
  | None => Ok None
  | Some a =>
      alternate ← get a s;
      match f_hooks alternate with
      | None | Some [] => Ok None
      | Some hooks =>
          i ← or_raise TypeError index;
          old_hook ← or_raise IndexError (hooks !! i);
          Ok (Some old_hook)
      end
  end.

(** [use_state].  [reactive(initial)] wraps the value in a proxy and
    is left out: the state of a hook is the value itself. *)
Definition use_state (initial : value) (s : PyGui) : res (value * PyGui) :=
  w ← or_raise AttributeError (wip_fiber s);
  fiber ← get w s;
  old_hook ← old_hook_of fiber (hook_index s) s;
  let state0 := match old_hook with Some h => state h | None => initial end in
  let actions := match old_hook with Some h => queue h | None => [] end in
  let state1 := fold_left (fun st action => action st) actions state0 in
  let '(subscription, s1) := watch s in
  hooks ← or_raise KeyError (f_hooks fiber);
  let s2 := modify w (set_hooks (Some (hooks ++ [mkHook state1 [] subscription]))) s1 in
  index ← or_raise TypeError (hook_index s2);
  Ok (state1, set_hook_index (Some (S index)) s2).

(** Calling a function component: every [use_state] it makes goes to
    the engine. *)
Fixpoint call_component (c : comp) (s : PyGui) : res (VNode dict * PyGui) :=
  match c with
  | Return v => Ok (v, s)
  | UseState initial k =>
      match use_state initial s with
      | Ok (v, s') => call_component (k v) s'
      | Raise e => Raise e
      | OutOfFuel => OutOfFuel
      end
  end.

(** One turn of the loop of [reconcile_children]: the new fiber, the
    next old fiber, and the engine after the turn. *)
Definition reconcile_step (wip_fiber : ref) (index : nat)
    (element : option (VNode dict)) (old_fiber prev_sibling : option ref)
    (s : PyGui) : res (option ref * option ref * PyGui) :=
  old ← match old_fiber with
        | Some o => f ← get o s; Ok (Some (o, f))
        | None => Ok None
        end;
  same_type ← match old, element with
              | Some (_, f), Some e =>
                  t ← or_raise KeyError (f_type f);
                  Ok (bool_decide (type e = t))
              | _, _ => Ok false
              end;
  let '(new_fiber, s1) :=
    match element, old with
    | Some e, Some (o, f) =>
        if same_type : bool
        then let '(n, s') :=
               alloc (mkFiber (f_type f) (props e) (children e) (f_dom f)
                        (Some wip_fiber) (Some o) (Some UPDATE)
                        None None None) s in
             (Some n, s')
        else let '(n, s') :=
               alloc (mkFiber (Some (type e)) (props e) (children e) None
                        (Some wip_fiber) None (Some PLACEMENT)
                        None None None) s in
             (Some n, s')
    | Some e, None =>
        let '(n, s') :=
          alloc (mkFiber (Some (type e)) (props e) (children e) None
                   (Some wip_fiber) None (Some PLACEMENT)
                   None None None) s in
        (Some n, s')
    | None, _ => (None, s)
    end in
  let s2 :=
    match old with
    | Some (o, _) =>
        if same_type : bool then s1
        else let s' := modify o (set_effect_tag (Some DELETION)) s1 in
             set_deletions (deletions s' ++ [o]) s'
    | None => s1
    end in
  let next_old := match old with
                  | Some (_, f) => f_sibling f
                  | None => None
                  end in
  s3 ← (if (index =? 0)%nat
        then Ok (modify wip_fiber (set_child new_fiber) s2)
        else match element with
             | Some _ =>
                 p ← or_raise TypeError prev_sibling;
                 Ok (modify p (set_sibling new_fiber) s2)
             | None => Ok s2
             end);
  Ok (new_fiber, next_old, s3).

Fixpoint reconcile_loop (fuel : nat) (wip_fiber : ref)
    (elements : list (VNode dict)) (index : nat)
    (old_fiber prev_sibling : option ref) (s : PyGui) : res PyGui :=
  if (index <? List.length elements)%nat || bool_decide (is_Some old_fiber)
  then match fuel with
       | O => OutOfFuel
       | S fuel' =>
           match reconcile_step wip_fiber index (elements !! index)
                   old_fiber prev_sibling s with
           | Ok (new_fiber, next_old, s') =>
               reconcile_loop fuel' wip_fiber elements (S index)
                 next_old new_fiber s'
           | Raise e => Raise e
           | OutOfFuel => OutOfFuel
           end
       end
  else Ok s.

Definition reconcile_children (fuel : nat) (wip_fiber : ref)
    (elements : list (VNode dict)) (s : PyGui) : res PyGui :=
  w ← get wip_fiber s;
  old_fiber ← match f_alternate w with
              | Some a => alternate ← get a s; Ok (f_child alternate)
              | None => Ok None
              end;
  reconcile_loop fuel wip_fiber elements 0 old_fiber None s.

(** [create_dom]: the scene object is made and given the props. *)
Definition create_dom (f : fiber) (s : PyGui) : res (handle * PyGui) :=
  t ← or_raise KeyError (f_type f);
  let dom := Node (next_handle s) in
  let s1 := emit [CreateElement dom t] (set_next_handle (S (next_handle s)) s) in
  Ok (dom, emit (update_dom dom [] (f_props f)) s1).

Definition update_function_component (fuel : nat) (fiber : ref) (s : PyGui)
  : res PyGui :=
  let s1 := set_wip_fiber (Some fiber) s in
  let s2 := set_hook_index (Some 0) s1 in
  let s3 := modify fiber (set_hooks (Some [])) s2 in
  f ← get fiber s3;
  c ← match f_type f with
      | Some (Comp c) => Ok c
      | _ => Raise TypeError
      end;
  '(child, s4) ← call_component (components c (f_props f)) s3;
  reconcile_children fuel fiber [child] s4.

Definition update_host_component (fuel : nat) (fiber : ref) (s : PyGui)
  : res PyGui :=
  f ← get fiber s;
  s1 ← match f_dom f with
       | Some _ => Ok s
       | None =>
           '(dom, s') ← create_dom f s;
           Ok (modify fiber (set_dom (Some dom)) s')
       end;
  f1 ← get fiber s1;
  reconcile_children fuel fiber (f_children f1) s1.

(** The [while next_fiber] loop at the end of [perform_unit_of_work]. *)
Fixpoint next_sibling_up (fuel : nat) (next_fiber : option ref) (s : PyGui)
  : res (option ref) :=
  match next_fiber with
  | None => Ok None
  | Some r =>
      match fuel with
      | O => OutOfFuel
      | S fuel' =>
          f ← get r s;
          match f_sibling f with
          | Some sibling => Ok (Some sibling)
          | None => next_sibling_up fuel' (f_parent f) s
          end
      end
  end.

(** The unit of work that follows [fiber]. *)
Definition next_unit (fuel : nat) (fiber : ref) (s : PyGui) : res (option ref) :=
  f ← get fiber s;
  match f_child f with
  | Some child => Ok (Some child)
  | None => next_sibling_up fuel (Some fiber) s
  end.

Definition is_function_component (f : fiber) : bool :=
  match f_type f with
  | Some (Comp _) => true
  | _ => false
  end.

Definition perform_unit_of_work (fuel : nat) (fiber : ref) (s : PyGui)
  : res (option ref * PyGui) :=
  f ← get fiber s;
  s1 ← (if is_function_component f
        then update_function_component fuel fiber s
        else update_host_component fuel fiber s);
  next ← next_unit fuel fiber s1;
  Ok (next, s1).

(** *** Commit *)

(** The [while not dom_parent_fiber.get("dom")] loop of [commit_work]. *)
Fixpoint dom_parent_of (fuel : nat) (dom_parent_fiber : option ref) (s : PyGui)
  : res handle :=
  match fuel with
  | O => OutOfFuel
  | S fuel' =>
      p ← or_raise AttributeError dom_parent_fiber;
      f ← get p s;
      match f_dom f with
      | Some dom => Ok dom
      | None => dom_parent_of fuel' (f_parent f) s
      end
  end.

Fixpoint commit_deletion (fuel : nat) (fiber : ref) (dom_parent : handle)
    (s : PyGui) : res PyGui :=
  match fuel with
  | O => OutOfFuel
  | S fuel' =>
      f ← get fiber s;
      match f_dom f with
      | Some dom => Ok (emit [Remove dom_parent dom] s)
      | None =>
          child ← or_raise KeyError (f_child f);
          commit_deletion fuel' child dom_parent s
      end
  end.

Fixpoint commit_work (fuel : nat) (fiber : option ref) (s : PyGui) : res PyGui :=
  match fiber with
  | None => Ok s
  | Some r =>
      match fuel with
      | O => OutOfFuel
      | S fuel' =>
          f ← get r s;
          dom_parent ← dom_parent_of fuel' (f_parent f) s;
          s1 ← match f_effect_tag f, f_dom f with
               | Some PLACEMENT, Some dom => Ok (emit [Add dom_parent dom] s)
               | Some UPDATE, Some dom =>
                   a ← or_raise TypeError (f_alternate f);
                   alternate ← get a s;
                   Ok (emit (update_dom dom (f_props alternate) (f_props f)) s)
               | Some DELETION, _ => commit_deletion fuel' r dom_parent s
               | _, _ => Ok s
               end;
          s2 ← commit_work fuel' (f_child f) s1;
          commit_work fuel' (f_sibling f) s2
      end
  end.

(** The [for deletion in self.deletions] loop of [commit_root]. *)
Fixpoint commit_deletions (fuel : nat) (ds : list ref) (s : PyGui) : res PyGui :=
  match ds with
  | [] => Ok s
  | deletion :: ds' =>
      s1 ← commit_work fuel (Some deletion) s;
      commit_deletions fuel ds' s1
  end.

Definition commit_root (fuel : nat) (s : PyGui) : res PyGui :=
  s1 ← commit_deletions fuel (deletions s) s;
  w ← or_raise AttributeError (wip_root s1);
  root ← get w s1;
  s2 ← commit_work fuel (f_child root) s1;
  Ok (set_wip_root None (set_current_root (wip_root s2) s2)).

(** *** The work loop *)

(** The [while] loop of [work_loop]; [should_yield] is its local. *)
Fixpoint work_loop_while (fuel : nat) (deadline : Z) (should_yield : bool)
    (s : PyGui) : res PyGui :=
  match next_unit_of_work s with
  | Some unit =>
      if should_yield then Ok s
      else match fuel with
           | O => OutOfFuel
           | S fuel' =>
               match perform_unit_of_work fuel' unit s with
               | Ok (next, s1) =>
                   let s2 := set_next_unit_of_work next s1 in
                   let '(now, s3) := perf_counter_ns s2 in
                   work_loop_while fuel' deadline
                     (deadline - now <? 1 * 1000000)%Z s3
               | Raise e => Raise e
               | OutOfFuel => OutOfFuel
               end
           end
  | None => Ok s
  end.

(** What [work_loop] does once its loop is left. *)
Definition work_loop_commit (fuel : nat) (s : PyGui) : res PyGui :=
  if bool_decide (next_unit_of_work s = None) && bool_decide (is_Some (wip_root s))
  then commit_root fuel s
  else Ok s.

Definition work_loop_finish (s : PyGui) : PyGui :=
  match next_unit_of_work s with
  | Some _ => request_idle_work None s
  | None =>
      match render_callback s with
      | Some cb => set_called (called s ++ [cb]) s
      | None => s
      end
  end.

Definition work_loop (fuel : nat) (deadline : Z) (s : PyGui) : res PyGui :=
  s1 ← work_loop_while fuel deadline false s;
  s2 ← work_loop_commit fuel s1;
  Ok (work_loop_finish s2).

(** *** The host loop *)

(** What can happen to the engine between two returns to the Qt loop:
    a call of [render], the timer firing, a watcher firing. *)
Inductive event :=
| Render (element : VNode dict) (container : handle) (callback : option nat)
| TimerTimeout
| StateUpdated.

Definition handle_event (fuel : nat) (e : event) (s : PyGui) : res PyGui :=
  match e with
  | Render element container callback => Ok (render element container callback s)
  | TimerTimeout =>
      match qt_timer s with
      | Some (deadline, true) =>
          work_loop fuel deadline (set_qt_timer (Some (deadline, false)) s)
      | _ => Ok s
      end
  | StateUpdated => state_updated s
  end.

Fixpoint run (fuel : nat) (events : list event) (s : PyGui) : res PyGui :=
  match events with
  | [] => Ok s
  | e :: events' =>
      s1 ← handle_event fuel e s;
      run fuel events' s1
  end.

End Engine.

(** ** What each phase leaves alone *)

(** The attributes no unit of work assigns. *)
Definition render_frame (s s' : PyGui) : Prop :=
  next_unit_of_work s' = next_unit_of_work s
  /\ current_root s' = current_root s
  /\ wip_root s' = wip_root s
  /\ qt_timer s' = qt_timer s
  /\ render_callback s' = render_callback s
  /\ ticks s' = ticks s
  /\ called s' = called s.

(** The commit phase only makes calls on the scene. *)
Definition only_host (s s' : PyGui) : Prop := exists ops, s' = emit ops s.

(** ** The order of the units of work *)

(** The units of work from [cur] on, on a generation whose links are
    all set: [next_unit] again and again until it gives [None]. *)
Fixpoint walk (fuel : nat) (cur : option nat) (s : PyGui) : res (list nat) :=
  match cur with
  | None => Ok []
  | Some r =>
      match fuel with
      | O => OutOfFuel
      | S fuel' =>
          next ← next_unit fuel' r s;
          rest ← walk fuel' next s;
          Ok (r :: rest)
      end
  end.

(** The fibers from [r] up to the root: [r], its parent, and so on. *)
Inductive ancestors (s : PyGui) : nat -> list fiber -> Prop :=
| ancestors_root r f :
    heap s !! r = Some f -> f_parent f = None -> ancestors s r [f]
| ancestors_parent r f p l :
    heap s !! r = Some f -> f_parent f = Some p -> ancestors s p l ->
    ancestors s r (f :: l).

(** The successor in the words of the design: the first child if there
    is one, else the next sibling of the nearest fiber, among the fiber
    and its ancestors, that has one; nothing if none has. *)
Definition successor_spec (l : list fiber) : option nat :=
  match l with
  | [] => None
  | f :: _ =>
      match f_child f with
      | Some child => Some child
      | None => head (omap f_sibling l)
      end
  end.

(** A generation as a tree of fibers, and its pre-order. *)
#[warnings="-register-all"]
Inductive fiber_tree := FT (r : nat) (kids : list fiber_tree).

Definition root_of (t : fiber_tree) : nat :=
  match t with FT r _ => r end.

Fixpoint preorder (t : fiber_tree) : list nat :=
  match t with FT r kids => r :: flat_map preorder kids end.

(** The links of the fibers in the arena are those of the tree: each
    fiber points at its parent, at its first child and at the sibling
    to its right. *)
Fixpoint shaped (s : PyGui) (parent : option nat) (t : fiber_tree)
    (sibling : option nat) {struct t} : bool :=
  match t with
  | FT r kids =>
      match heap s !! r with
      | Some f =>
          bool_decide (f_parent f = parent)
          && bool_decide (f_sibling f = sibling)
          && bool_decide (f_child f = head (map root_of kids))
          && (fix chained (ks : list fiber_tree) : bool :=
                match ks with
                | [] => true
                | k :: ks' =>
                    shaped s (Some r) k (head (map root_of ks')) && chained ks'
                end) kids
      | None => false
      end
  end.

Fixpoint chained (s : PyGui) (r : nat) (ks : list fiber_tree) : bool :=
  match ks with
  | [] => true
  | k :: ks' => shaped s (Some r) k (head (map root_of ks')) && chained s r ks'
  end.

(** The loop that looks for a sibling, as a relation. *)
Inductive climb (s : PyGui) : option nat -> option nat -> Prop :=
| climb_top : climb s None None
| climb_sibling r f sibling :
    heap s !! r = Some f -> f_sibling f = Some sibling ->
    climb s (Some r) (Some sibling)
| climb_parent r f next :
    heap s !! r = Some f -> f_sibling f = None ->
    climb s (f_parent f) next -> climb s (Some r) next.

(** The units of work from a fiber on, as a relation. *)
Inductive walk_rel (s : PyGui) : option nat -> list nat -> Prop :=
| walk_done : walk_rel s None []
| walk_child r f child rest :
    heap s !! r = Some f -> f_child f = Some child ->
    walk_rel s (Some child) rest -> walk_rel s (Some r) (r :: rest)
| walk_up r f next rest :
    heap s !! r = Some f -> f_child f = None ->
    climb s (Some r) next -> walk_rel s next rest ->
    walk_rel s (Some r) (r :: rest).

(** ** Programs to run the engine on *)

(** [create_element] on values: what the node holds once the key is
    taken out of the props. *)
Definition h (t : vtype) (props : dict) (children : list (VNode dict))
  : VNode dict :=
  mkVNode t (dict_remove "key" props) children (dict_lookup "key" props).

Fixpoint chars (s : string) : list string :=
  match s with
  | EmptyString => []
  | String c s' => String c EmptyString :: chars s'
  end.

(** [h("item", {"key": item, "content": item})] *)
Definition item (x : string) : VNode dict :=
  h (Tag "item") [("key", VStr x); ("content", VStr x)] [].

(** The component of [test_reconcile_by_key]: one keyed item for each
    entry of [props["items"]] (here a string, one letter per entry). *)
Definition Items (props : dict) : comp :=
  match dict_get props "items" with
  | VStr items => Return (h (Tag "items") props (map item (chars items)))
  | _ => Return (h (Tag "items") props [])
  end.

(** A component with one piece of state. *)
Definition Counter (props : dict) : comp :=
  UseState (VInt 0) (fun count =>
    Return (h (Tag "counter") [("count", count)] [])).

(** A component that asks for a second piece of state when told to. *)
Definition Pair (props : dict) : comp :=
  UseState (VInt 0) (fun first =>
    match dict_get props "more" with
    | VInt 0 => Return (h (Tag "pair") [("first", first)] [])
    | _ => UseState (VInt 1) (fun second =>
             Return (h (Tag "pair") [("first", first); ("second", second)] []))
    end).

Definition demo (c : nat) : dict -> comp :=
  match c with
  | 0%nat => Items
  | 1%nat => Counter
  | _ => Pair
  end.

(** A clock that stands still: no slice ever runs out of time. *)
Definition still (tick : nat) : Z := 0%Z.

(** A clock that jumps 20 ms at every reading: every slice is one unit. *)
Definition jumpy (tick : nat) : Z := (Z.of_nat tick * 20000000)%Z.

(** The calls made on the scene since the engine was in state [s]. *)
Definition host_since (s s' : PyGui) : list op :=
  drop (List.length (host s)) (host s').

(** The items of the current generation, in order: the content and the
    scene object of each. *)
Definition item_handles (fuel : nat) (s : PyGui) : list (value * option handle) :=
  match walk fuel (current_root s) s with
  | Ok refs =>
      omap (fun r =>
              f ← heap s !! r;
              if bool_decide (f_type f = Some (Tag "item"))
              then Some (dict_get (f_props f) "content", f_dom f)
              else None) refs
  | _ => []
  end.

(** ** The mutations of the render phase *)

(** The fields of a fiber that say what it is and where it hangs. *)
Definition keeps (g : fiber -> fiber) : Prop :=
  forall f,
    f_type (g f) = f_type f /\ f_props (g f) = f_props f
    /\ f_children (g f) = f_children f /\ f_parent (g f) = f_parent f
    /\ f_alternate (g f) = f_alternate f /\ f_dom (g f) = f_dom f.

(** One mutation of the engine while a generation is built: an
    assignment to an attribute of the engine, a new fiber, an
    assignment to a link, tag or hook list of a fiber, a new
    subscription, or a new scene object for a fiber that has none. *)
Inductive prim : PyGui -> PyGui -> Prop :=
| prim_attrs s s' :
    heap s' = heap s -> watchers s' = watchers s -> host s' = host s ->
    next_handle s' = next_handle s -> prim s s'
| prim_alloc f s : prim s (snd (alloc f s))
| prim_modify r g s : keeps g -> prim s (modify r g s)
| prim_watch s : prim s (set_watchers (watchers s ++ [true]) s)
| prim_create r f t s :
    heap s !! r = Some f -> f_dom f = None ->
    prim s
      (modify r (set_dom (Some (Node (next_handle s))))
         (emit (update_dom (Node (next_handle s)) [] (f_props f))
            (emit [CreateElement (Node (next_handle s)) t]
               (set_next_handle (S (next_handle s)) s)))).

Inductive render_steps : PyGui -> PyGui -> Prop :=
| rs_refl s : render_steps s s
| rs_step s1 s2 s3 : prim s1 s2 -> render_steps s2 s3 -> render_steps s1 s3.

(** A call on a scene object made by [create_element] with a number
    from [lo] up to, not including, [hi], that makes it or gives it a
    property or a listener. *)
Definition fresh_op (lo hi : nat) (o : op) : bool :=
  match o with
  | CreateElement (Node n) _
  | SetAttribute (Node n) _ _
  | AddEventHandler (Node n) _ _ => (lo <=? n)%nat && (n <? hi)%nat
  | _ => false
  end.

(** The fibers of [s] are still there in [s'], each with the type,
    props, children, parent and alternate it had, and with the scene
    object it had if it had one. *)
Definition stable (s s' : PyGui) : Prop :=
  forall r f,
    heap s !! r = Some f ->
    exists f',
      heap s' !! r = Some f'
      /\ f_type f' = f_type f /\ f_props f' = f_props f
      /\ f_children f' = f_children f /\ f_parent f' = f_parent f
      /\ f_alternate f' = f_alternate f
      /\ (forall dom, f_dom f = Some dom -> f_dom f' = Some dom).

(** The subscriptions of [s] are those of [s'], followed by live ones. *)
Definition watchers_grow (s s' : PyGui) : Prop :=
  exists l, watchers s' = watchers s ++ l /\ Forall (fun b => b = true) l.

(** The calls made on the scene between [s] and [s'] are all on scene
    objects made in between. *)
Definition fresh_calls (s s' : PyGui) : Prop :=
  exists ops,
    host s' = host s ++ ops
    /\ (next_handle s <= next_handle s')%nat
    /\ Forall (fun o => fresh_op (next_handle s) (next_handle s') o = true) ops.


(** The fiber made for an element that has no old fiber to go with. *)
Definition placement (wip_fiber : nat) (e : VNode dict) (sibling : option nat)
  : fiber :=
  mkFiber (Some (type e)) (props e) (children e) None (Some wip_fiber) None
    (Some PLACEMENT) None sibling None.

(** The fibers from [o] on along the sibling links, each with a type. *)
Fixpoint sibling_chain (s : PyGui) (o : option nat) (l : list nat) : Prop :=
  match l with
  | [] => o = None
  | r :: l' =>
      o = Some r
      /\ exists f, heap s !! r = Some f /\ is_Some (f_type f)
                   /\ sibling_chain s (f_sibling f) l'
  end.

(** The arena after [i] elements of a first render are placed. *)
Definition mounted (s : PyGui) (wip : nat) (es : list (VNode dict)) (i : nat)
    (si : PyGui) : Prop :=
  List.length (heap si) = (List.length (heap s) + i)%nat
  /\ deletions si = deletions s
  /\ (forall j e, (j < i)%nat -> es !! j = Some e ->
        heap si !! (List.length (heap s) + j)%nat
        = Some (placement wip e
                  (if (S j <? i)%nat then Some (List.length (heap s) + S j)%nat
                   else None)))
  /\ (forall r f, heap s !! r = Some f ->
        heap si !! r
        = Some (if (0 <? i)%nat && (r =? wip)%nat
                then set_child (Some (List.length (heap s))) f else f)).

(** What becomes of fiber [r] when the old children [l] of the
    alternate of [wip] are reconciled with no element at all: the old
    children are tagged, and [wip], if there was an old child, gets
    [None] as its child. *)
Definition emptied (link : bool) (wip : nat) (l : list nat) (r : nat)
    (f : fiber) : fiber :=
  let f1 := if link && negb (bool_decide (l = [])) && (r =? wip)%nat
            then set_child None f else f in
  if bool_decide (r ∈ l) then set_effect_tag (Some DELETION) f1 else f1.

(** The scene object a deletion removes: the one of the fiber, or
    else of the first fiber down its first-child links that has one. *)
Inductive first_host (s : PyGui) : nat -> handle -> Prop :=
| first_host_here r f dom :
    heap s !! r = Some f -> f_dom f = Some dom -> first_host s r dom
| first_host_down r f child dom :
    heap s !! r = Some f -> f_dom f = None -> f_child f = Some child ->
    first_host s child dom -> first_host s r dom.

(** The scene object the effects of a fiber are applied under: the one
    of the nearest fiber, from [o] up the parent links, that has one. *)
Inductive host_above (s : PyGui) : option nat -> handle -> Prop :=
| host_above_here p f dom :
    heap s !! p = Some f -> f_dom f = Some dom -> host_above s (Some p) dom
| host_above_up p f dom :
    heap s !! p = Some f -> f_dom f = None ->
    host_above s (f_parent f) dom -> host_above s (Some p) dom.

(** The calls a commit is to make for a tree of fibers hanging under
    the scene object [dom_parent]: those of the root by its tag, then
    those of its children, left to right, under the scene object of the
    root if it has one and under [dom_parent] if not. *)
Fixpoint commit_ops (s : PyGui) (dom_parent : handle) (t : fiber_tree)
  : list op :=
  match t with
  | FT r kids =>
      match heap s !! r with
      | Some f =>
          let own :=
            match f_effect_tag f, f_dom f with
            | Some PLACEMENT, Some dom => [Add dom_parent dom]
            | Some UPDATE, Some dom =>
                match f_alternate f ≫= (fun a => heap s !! a) with
                | Some alternate =>
                    update_dom dom (f_props alternate) (f_props f)
                | None => []
                end
            | _, _ => []
            end in
          let below := default dom_parent (f_dom f) in
          own ++ flat_map (commit_ops s below) kids
      | None => []
      end
  end.

(** No fiber of the tree is tagged [DELETION], and every fiber tagged
    [UPDATE] that has a scene object has its alternate in the arena. *)
Fixpoint committable (s : PyGui) (t : fiber_tree) : bool :=
  match t with
  | FT r kids =>
      match heap s !! r with
      | Some f =>
          match f_effect_tag f, f_dom f with
          | Some DELETION, _ => false
          | Some UPDATE, Some _ =>
              bool_decide (is_Some (f_alternate f ≫= (fun a => heap s !! a)))
          | _, _ => true
          end
          && forallb (committable s) kids
      | None => false
      end
  end.

(** What a call of [commit_work] is expected to do from any state with
    the arena of [s]: return, having made the calls [ops]. *)
Definition commits (s : PyGui) (o : option nat) (ops : list op) : Prop :=
  exists n, forall fuel s0, (n <= fuel)%nat -> heap s0 = heap s ->
    commit_work fuel o s0 = Ok (emit ops s0).

(** ** The renderer of the reconciliation test *)

Module CustomElementRenderer.

(** Elements are plain objects, equal only to themselves: a name each.
    [parent.children] is a list of them.  [None] stands for the
    [ValueError] of [list.index] and [list.remove]. *)

(** [children.index(x)] *)
Fixpoint index (x : nat) (children : list nat) : option nat :=
  match children with
  | [] => None
  | y :: children' =>
      if (y =? x)%nat then Some 0%nat else S <$> index x children'
  end.

(** [insert(el, parent, anchor)]: the children of the parent after
    the call. *)
Definition insert (el : nat) (children : list nat) (anchor : option nat)
  : option (list nat) :=
  idx ← match anchor with
        | Some a => index a children
        | None => Some (List.length children)
        end;
  Some (take idx children ++ el :: drop idx children).

(** [remove(el, parent)]: [children.remove(el)] takes out the first
    occurrence. *)
Fixpoint remove (el : nat) (children : list nat) : option (list nat) :=
  match children with
  | [] => None
  | y :: children' =>
      if (y =? el)%nat then Some children'
      else cons y <$> remove el children'
  end.

End CustomElementRenderer.

(** ** The name lookup injected into components *)

Module Lookup.

(** The four ways [_lookup] knows to find a name. *)
Inductive method := props_lookup | state_lookup | self_lookup | global_lookup.

(** What [_lookup] reads of a component: its props, its state, and its
    attributes as [getattr] and [hasattr] see them. *)
Record component := mkComponent {
  c_props : dict;
  c_state : dict;
  c_attrs : dict
}.

Inductive error := NameError | KeyError | AttributeError.

Inductive outcome (A : Type) :=
| Returns (a : A)
| Raises (e : error)
| Unfinished.
Arguments Returns {A} _.
Arguments Raises {A} _.
Arguments Unfinished {A}.

Definition subscript (e : error) (d : dict) (name : string) : outcome value :=
  match dict_lookup name d with
  | Some v => Returns v
  | None => Raises e
  end.

(** A call [method(self, name)]. *)
Definition call (globals : dict) (m : method) (self : component)
    (name : string) : outcome value :=
  match m with
  | props_lookup => subscript KeyError (c_props self) name
  | state_lookup => subscript KeyError (c_state self) name
  | self_lookup => subscript AttributeError (c_attrs self) name
  | global_lookup => subscript KeyError globals name
  end.

Fixpoint cache_get (name : string) (cache : list (string * method))
  : option method :=
  match cache with
  | [] => None
  | (k, m) :: cache' => if String.eqb k name then Some m else cache_get name cache'
  end.

(** [_lookup(self, name)].  The cache is the default value of the
    parameter [cache]: one dict for all calls, whatever the component.
    The result is the value and the cache after the call. *)
Fixpoint _lookup (fuel : nat) (globals : dict) (self : component)
    (name : string) (cache : list (string * method))
  : outcome (value * list (string * method)) :=
  match fuel with
  | O => Unfinished
  | S fuel' =>
      match cache_get name cache with
      | Some m =>
          match call globals m self name with
          | Returns v => Returns (v, cache)
          | Raises e => Raises e
          | Unfinished => Unfinished
          end
      | None =>
          let found :=
            if dict_mem name (c_props self) then Some props_lookup
            else if dict_mem name (c_state self) then Some state_lookup
            else if dict_mem name (c_attrs self) then Some self_lookup
            else if dict_mem name globals then Some global_lookup
            else None in
          match found with
          | Some m => _lookup fuel' globals self name (cache ++ [(name, m)])
          | None => Raises NameError
          end
      end
  end.

End Lookup.

(** * Properties *)

(** ** The element factory *)

Lemma dict_lookup_remove (k : string) (d : dict) :
  dict_lookup k (dict_remove k d) = None.
Proof.
  induction d as [|[k' v] d IH]; simpl; [reflexivity|].
  destruct (String.eqb k' k) eqn:E; simpl; [assumption|].
  rewrite E. assumption.
Qed.

Lemma dict_remove_absent (k : string) (d : dict) :
  dict_lookup k d = None -> dict_remove k d = d.
Proof.
  induction d as [|[k' v] d IH]; simpl; [reflexivity|].
  destruct (String.eqb k' k); [discriminate|].
  intros H. rewrite IH by assumption. reflexivity.
Qed.

Lemma dict_mem_false (k : string) (d : dict) :
  dict_mem k d = false -> dict_lookup k d = None.
Proof.
  unfold dict_mem. intros H. apply bool_decide_eq_false in H.
  destruct (dict_lookup k d); [|reflexivity].
  exfalso. apply H. eexists. reflexivity.
Qed.

(** What [create_element] does to the dict it is given and which dict
    the node ends up with, whatever the dict holds. *)
Lemma create_element_some (t : vtype) (r : nat) (cs : list (VNode nat))
    (st : list dict) (d : dict) :
  st !! r = Some d ->
  let d' := dict_remove "key" d in
  Element.create_element t (Some r) cs st =
    Some (mkVNode t (if bool_decide (d' = []) then List.length st else r) cs
            (dict_lookup "key" d),
          if bool_decide (d' = []) then <[r := d']> st ++ [[]] else <[r := d']> st).
Proof.
  intros Hr d'. unfold Element.create_element. rewrite Hr. simpl.
  destruct (dict_mem "key" d) eqn:Hm.
  - assert (Hne : bool_decide (d = []) = false).
    { apply bool_decide_eq_false. intros ->. discriminate Hm. }
    rewrite Hne. simpl. fold d'.
    destruct (bool_decide (d' = [])); rewrite ?length_insert; reflexivity.
  - apply dict_mem_false in Hm. rewrite andb_false_r.
    assert (Hd : d' = d) by (apply dict_remove_absent; assumption).
    rewrite Hd, Hm.
    destruct (bool_decide (d = [])); rewrite ?length_insert; reflexivity.
Qed.

(** C10, as the code has it: the entry [key] leaves the dict of the
    caller and becomes the key of the node; the node holds that very
    dict when the dict is not empty afterwards, and a new empty dict
    when it is (or when no dict was given); children are the ones
    given, none when none were. *)
Theorem create_element_props_identity (t : vtype) (r : nat)
    (cs : list (VNode nat)) (st : list dict) (d : dict) :
  st !! r = Some d ->
  (exists v st',
     Element.create_element t (Some r) cs st = Some (v, st')
     /\ type v = t /\ children v = cs
     /\ key v = dict_lookup "key" d
     /\ st' !! r = Some (dict_remove "key" d)
     /\ (forall r', r' <> r -> (r' < List.length st)%nat -> st' !! r' = st !! r')
     /\ (dict_remove "key" d <> [] -> props v = r /\ List.length st' = List.length st)
     /\ (dict_remove "key" d = [] ->
         props v = List.length st /\ props v <> r /\ st' !! props v = Some []))
  /\ Element.create_element t None cs st
     = Some (mkVNode t (List.length st) cs None, st ++ [[]]).
Proof.
  intros Hr. split; [|reflexivity].
  pose proof (lookup_lt_Some _ _ _ Hr) as Hlt.
  rewrite (create_element_some t r cs st d Hr). cbv zeta.
  set (d' := dict_remove "key" d).
  destruct (bool_decide (d' = [])) eqn:E.
  - apply bool_decide_eq_true in E.
    eexists _, _. split; [reflexivity|]. simpl.
    split_and!; try reflexivity.
    + rewrite lookup_app_l by (rewrite length_insert; assumption).
      apply list_lookup_insert_eq. assumption.
    + intros r' Hne Hr'.
      rewrite lookup_app_l by (rewrite length_insert; assumption).
      apply list_lookup_insert_ne. congruence.
    + intros Hc. contradiction.
    + intros _. split_and!; [reflexivity|lia|].
      rewrite lookup_app_r by (rewrite length_insert; lia).
      rewrite length_insert, Nat.sub_diag. reflexivity.
  - apply bool_decide_eq_false in E.
    eexists _, _. split; [reflexivity|]. simpl.
    split_and!; try reflexivity.
    + apply list_lookup_insert_eq. assumption.
    + intros r' Hne Hr'. apply list_lookup_insert_ne. congruence.
    + intros _. split; [reflexivity|apply length_insert].
    + intros Hc. contradiction.
Qed.

Lemma create_element_props_identity_witness :
  [[("key", VStr "a"); ("content", VStr "a")]] !! 0%nat
    = Some [("key", VStr "a"); ("content", VStr "a")]
  /\ exists v st',
       Element.create_element (Tag "item") (Some 0%nat) []
         [[("key", VStr "a"); ("content", VStr "a")]] = Some (v, st')
       /\ props v = 0%nat
       /\ key v = Some (VStr "a")
       /\ st' !! 0%nat = Some [("content", VStr "a")].
Proof.
  split; [reflexivity|].
  destruct (create_element_props_identity (Tag "item") 0 []
              [[("key", VStr "a"); ("content", VStr "a")]]
              [("key", VStr "a"); ("content", VStr "a")] eq_refl)
    as [(v & st' & Hc & _ & _ & Hk & Hst & _ & Hne & _) _].
  exists v, st'. split; [exact Hc|].
  destruct Hne as [Hp _]; [vm_compute; discriminate|].
  split; [exact Hp|]. split; [exact Hk|exact Hst].
Defined.

(** C10, as stated, fails on a dict that holds nothing but the key: the
    key is taken out of the dict of the caller (at address 0), and the
    node holds another, new dict (at address 1). *)
Lemma create_element_key_only :
  exists v st',
    Element.create_element (Tag "item") (Some 0%nat) [] [[("key", VStr "a")]]
      = Some (v, st')
    /\ key v = Some (VStr "a")
    /\ st' !! 0%nat = Some []
    /\ props v <> 0%nat.
Proof.
  eexists _, _. split; [reflexivity|]. simpl. repeat split. discriminate.
Qed.

(** ** The property differ *)

Lemma flat_map_all_nil {A B} (f : A -> list B) (l : list A) :
  (forall x, f x = []) -> flat_map f l = [].
Proof.
  intros H. induction l as [|x l IH]; simpl; [reflexivity|].
  rewrite H, IH. reflexivity.
Qed.

(** No listener is ever removed for being absent from the next props. *)
Lemma remove_old_listeners_nil (dom : handle) (prev_props : dict) :
  remove_old_listeners dom prev_props [] = [].
Proof.
  apply flat_map_all_nil. intros [name val].
  destruct (is_event name); reflexivity.
Qed.



(** ** The arena *)

Lemma lookup_modify_proj {A} (proj : fiber -> A) (g : fiber -> fiber)
    (r i : nat) (s : PyGui) :
  (forall f, proj (g f) = proj f) ->
  proj <$> heap (modify r g s) !! i = proj <$> heap s !! i.
Proof.
  intros Hg. unfold modify. simpl.
  destruct (decide (r = i)) as [->|Hne].
  - rewrite list_lookup_alter_eq. destruct (heap s !! i); simpl; [|reflexivity].
    rewrite Hg. reflexivity.
  - rewrite list_lookup_alter_ne by assumption. reflexivity.
Qed.

Lemma lookup_modify_eq (g : fiber -> fiber) (r : nat) (s : PyGui) :
  heap (modify r g s) !! r = g <$> heap s !! r.
Proof. unfold modify. simpl. apply list_lookup_alter_eq. Qed.

Lemma lookup_modify_ne (g : fiber -> fiber) (r i : nat) (s : PyGui) :
  r <> i -> heap (modify r g s) !! i = heap s !! i.
Proof. intros H. unfold modify. simpl. apply list_lookup_alter_ne. assumption. Qed.

Lemma lookup_alloc_new (f : fiber) (s : PyGui) :
  heap (snd (alloc f s)) !! List.length (heap s) = Some f.
Proof.
  unfold alloc. simpl. rewrite lookup_app_r by lia.
  rewrite Nat.sub_diag. reflexivity.
Qed.

Lemma lookup_alloc_old (f g : fiber) (i : nat) (s : PyGui) :
  heap s !! i = Some g -> heap (snd (alloc f s)) !! i = Some g.
Proof.
  intros H. unfold alloc. simpl. rewrite lookup_app_l; [assumption|].
  eapply lookup_lt_Some. eassumption.
Qed.

Lemma alloc_eq (f : fiber) (s : PyGui) :
  alloc f s = (List.length (heap s), snd (alloc f s)).
Proof. reflexivity. Qed.

(** ** The reconciler *)

(** C4: a turn of the reconciler on an old fiber and a new element.
    With the same type, the new fiber is tagged [UPDATE], has the scene
    object of the old fiber and the old fiber as its alternate, and the
    old fiber is left alone.  With another type, whatever the key of
    the element, the old fiber is tagged [DELETION] and put at the end
    of the deletions, and the new fiber is tagged [PLACEMENT], with no
    scene object, no alternate and no hooks. *)
Theorem reconcile_step_type_rule (wip index : nat) (e : VNode dict) (o : nat)
    (prev : option nat) (s : PyGui) (old : fiber) (t : vtype) :
  heap s !! o = Some old ->
  f_type old = Some t ->
  (index <> 0%nat -> is_Some prev) ->
  let n := List.length (heap s) in
  exists s',
    reconcile_step wip index (Some e) (Some o) prev s
      = Ok (Some n, f_sibling old, s')
    /\ (type e = t ->
          f_effect_tag <$> heap s' !! n = Some (Some UPDATE)
          /\ f_dom <$> heap s' !! n = Some (f_dom old)
          /\ f_alternate <$> heap s' !! n = Some (Some o)
          /\ f_effect_tag <$> heap s' !! o = Some (f_effect_tag old)
          /\ deletions s' = deletions s)
    /\ (type e <> t ->
          f_effect_tag <$> heap s' !! n = Some (Some PLACEMENT)
          /\ f_dom <$> heap s' !! n = Some None
          /\ f_alternate <$> heap s' !! n = Some None
          /\ f_hooks <$> heap s' !! n = Some None
          /\ f_effect_tag <$> heap s' !! o = Some (Some DELETION)
          /\ deletions s' = deletions s ++ [o]).
Proof.
  intros Ho Ht Hprev n.
  assert (Hlt : (o < n)%nat) by (eapply lookup_lt_Some; eassumption).
  unfold reconcile_step, get. rewrite Ho.
  cbn -[alloc modify set_deletions]. rewrite Ht.
  cbn -[alloc modify set_deletions].
  assert (Hlink : forall nf s0, exists r g,
             (if (index =? 0)%nat then Ok (modify wip (set_child nf) s0)
              else p ← or_raise TypeError prev;
                   Ok (modify p (set_sibling nf) s0))
             = Ok (modify r g s0)
             /\ (forall f, f_effect_tag (g f) = f_effect_tag f)
             /\ (forall f, f_dom (g f) = f_dom f)
             /\ (forall f, f_alternate (g f) = f_alternate f)
             /\ (forall f, f_hooks (g f) = f_hooks f)).
  { intros nf s0. destruct (index =? 0)%nat eqn:E.
    - exists wip, (set_child nf). split_and!; reflexivity.
    - apply Nat.eqb_neq in E. destruct (Hprev E) as [p ->].
      exists p, (set_sibling nf). split_and!; reflexivity. }
  destruct (bool_decide (type e = t)) eqn:Hsame.
  - apply bool_decide_eq_true in Hsame.
    match goal with
    | |- context [alloc ?f s] => set (nf := f)
    end.
    pose proof (lookup_alloc_new nf s) as Hn. fold n in Hn.
    pose proof (lookup_alloc_old nf old o s Ho) as Ho'.
    rewrite (alloc_eq nf s). fold n. set (s1 := snd (alloc nf s)) in *.
    assert (Hdel : deletions s1 = deletions s) by reflexivity.
    clearbody s1.
    cbn -[modify].
    destruct (Hlink (Some n) s1) as (r & g & Hl & Ht' & Hd & Ha & Hh).
    cbn -[modify] in Hl. rewrite Hl. cbn -[modify].
    eexists. split; [reflexivity|]. split; [|intros Hc; contradiction].
    intros _.
    rewrite !(lookup_modify_proj _ g) by assumption.
    rewrite Hn, Ho'. split_and!; try reflexivity; cbn; congruence.
  - apply bool_decide_eq_false in Hsame.
    match goal with
    | |- context [alloc ?f s] => set (nf := f)
    end.
    pose proof (lookup_alloc_new nf s) as Hn. fold n in Hn.
    pose proof (lookup_alloc_old nf old o s Ho) as Ho'.
    rewrite (alloc_eq nf s). fold n. set (s1 := snd (alloc nf s)) in *.
    assert (Hdel : deletions s1 = deletions s) by reflexivity.
    clearbody s1.
    cbn -[modify set_deletions].
    set (s2 := set_deletions _ _).
    destruct (Hlink (Some n) s2) as (r & g & Hl & Ht' & Hd & Ha & Hh).
    cbn -[modify] in Hl. rewrite Hl. cbn -[modify].
    eexists. split; [reflexivity|]. split; [intros Hc; contradiction|].
    intros _.
    rewrite !(lookup_modify_proj _ g) by assumption.
    subst s2.
    change (heap (set_deletions ?d ?x)) with (heap x).
    rewrite lookup_modify_eq, (lookup_modify_ne _ o n) by lia.
    rewrite Hn, Ho'. split_and!; try reflexivity; cbn; congruence.
Qed.

(** ** What the render phase leaves alone *)

Lemma bind_Ok {A B} (m : res A) (f : A -> res B) (b : B) :
  m ≫= f = Ok b -> exists a, m = Ok a /\ f a = Ok b.
Proof. destruct m; cbn; intros H; try discriminate. eauto. Qed.

Lemma or_raise_Ok {A} (e : exn) (o : option A) (a : A) :
  or_raise e o = Ok a -> o = Some a.
Proof. destruct o; cbn; congruence. Qed.

Ltac inv_bind H :=
  let a := fresh "a" in
  let E := fresh "E" in
  apply bind_Ok in H; destruct H as (a & E & H).

Lemma render_frame_refl (s : PyGui) : render_frame s s.
Proof. repeat split. Qed.

Lemma render_frame_trans (s1 s2 s3 : PyGui) :
  render_frame s1 s2 -> render_frame s2 s3 -> render_frame s1 s3.
Proof. unfold render_frame. intuition congruence. Qed.

Lemma render_frame_modify (r : nat) (g : fiber -> fiber) (s : PyGui) :
  render_frame s (modify r g s).
Proof. repeat split. Qed.

Lemma render_frame_alloc (f : fiber) (s : PyGui) :
  render_frame s (snd (alloc f s)).
Proof. repeat split. Qed.

Section Frames.

Variable components : nat -> dict -> comp.

Lemma use_state_frame (initial v : value) (s s' : PyGui) :
  use_state initial s = Ok (v, s') -> render_frame s s'.
Proof.
  unfold use_state. intros H.
  inv_bind H. inv_bind H. inv_bind H. cbn -[modify] in H.
  inv_bind H. inv_bind H. injection H as _ <-.
  repeat split.
Qed.

Lemma call_component_frame (c : comp) (v : VNode dict) (s s' : PyGui) :
  call_component c s = Ok (v, s') -> render_frame s s'.
Proof.
  revert s. induction c as [v0|initial k IH]; intros s; cbn.
  - intros [= _ <-]. apply render_frame_refl.
  - destruct (use_state initial s) as [[x s1]| |] eqn:E; try discriminate.
    intros Hk. eapply render_frame_trans.
    + eapply use_state_frame. eassumption.
    + eapply IH. eassumption.
Qed.

Lemma reconcile_step_frame (wip index : nat) (element : option (VNode dict))
    (old_fiber prev : option nat) (s s' : PyGui) (nf no : option nat) :
  reconcile_step wip index element old_fiber prev s = Ok (nf, no, s') ->
  render_frame s s'.
Proof.
  unfold reconcile_step. intros H.
  inv_bind H. inv_bind H.
  destruct element as [e|], a as [[o f]|], a0;
    cbn -[modify] in H; inv_bind H; injection H as _ _ <-;
    (destruct (index =? 0)%nat;
     [injection E1 as <-
     |first [inv_bind E1; injection E1 as <- | injection E1 as <-]]);
    repeat split.
Qed.

Lemma reconcile_loop_frame (fuel wip : nat) (elements : list (VNode dict))
    (index : nat) (old_fiber prev : option nat) (s s' : PyGui) :
  reconcile_loop fuel wip elements index old_fiber prev s = Ok s' ->
  render_frame s s'.
Proof.
  revert index old_fiber prev s.
  induction fuel as [|fuel IH]; intros index old_fiber prev s H;
    cbn [reconcile_loop] in H;
    destruct ((index <? List.length elements)%nat
              || bool_decide (is_Some old_fiber));
    try discriminate H; try (injection H as <-; apply render_frame_refl).
  destruct (reconcile_step wip index (elements !! index) old_fiber prev s)
    as [[[nf no] s1]| |] eqn:E; try discriminate H.
  eapply render_frame_trans.
  - eapply reconcile_step_frame. eassumption.
  - eapply IH. eassumption.
Qed.

Lemma reconcile_children_frame (fuel wip : nat)
    (elements : list (VNode dict)) (s s' : PyGui) :
  reconcile_children fuel wip elements s = Ok s' -> render_frame s s'.
Proof.
  unfold reconcile_children. intros H. inv_bind H. inv_bind H.
  eapply reconcile_loop_frame. eassumption.
Qed.

Lemma update_function_component_frame (fuel fiber : nat) (s s' : PyGui) :
  update_function_component components fuel fiber s = Ok s' ->
  render_frame s s'.
Proof.
  unfold update_function_component. intros H.
  inv_bind H. inv_bind H. inv_bind H. destruct a1 as [child s4].
  eapply render_frame_trans; [|eapply reconcile_children_frame; eassumption].
  eapply render_frame_trans; [|eapply call_component_frame; eassumption].
  repeat split.
Qed.

Lemma update_host_component_frame (fuel fiber : nat) (s s' : PyGui) :
  update_host_component fuel fiber s = Ok s' -> render_frame s s'.
Proof.
  unfold update_host_component. intros H.
  inv_bind H. inv_bind H. inv_bind H.
  eapply render_frame_trans; [|eapply reconcile_children_frame; eassumption].
  destruct (f_dom a) as [dom|].
  - injection E0 as <-. apply render_frame_refl.
  - inv_bind E0. destruct a2 as [dom s1]. injection E0 as <-.
    unfold create_dom in E2. inv_bind E2. injection E2 as _ <-.
    repeat split.
Qed.

Lemma perform_unit_of_work_frame (fuel fiber : nat) (s s' : PyGui)
    (next : option nat) :
  perform_unit_of_work components fuel fiber s = Ok (next, s') ->
  render_frame s s'.
Proof.
  unfold perform_unit_of_work. intros H.
  inv_bind H. inv_bind H. inv_bind H. injection H as _ <-.
  destruct (is_function_component a).
  - eapply update_function_component_frame. eassumption.
  - eapply update_host_component_frame. eassumption.
Qed.

End Frames.

(** ** What the commit phase leaves alone *)

Lemma only_host_refl (s : PyGui) : only_host s s.
Proof.
  exists []. unfold emit. rewrite app_nil_r. destruct s. reflexivity.
Qed.

Lemma only_host_trans (s1 s2 s3 : PyGui) :
  only_host s1 s2 -> only_host s2 s3 -> only_host s1 s3.
Proof.
  intros [ops1 ->] [ops2 ->]. exists (ops1 ++ ops2).
  unfold emit. cbn. rewrite app_assoc. reflexivity.
Qed.

Lemma only_host_emit (ops : list op) (s : PyGui) : only_host s (emit ops s).
Proof. exists ops. reflexivity. Qed.

Lemma commit_deletion_only_host (fuel fiber : nat) (dom_parent : handle)
    (s s' : PyGui) :
  commit_deletion fuel fiber dom_parent s = Ok s' -> only_host s s'.
Proof.
  revert fiber. induction fuel as [|fuel IH]; intros fiber H;
    cbn [commit_deletion] in H; [discriminate H|].
  inv_bind H. destruct (f_dom a) as [dom|].
  - injection H as <-. apply only_host_emit.
  - inv_bind H. eapply IH. eassumption.
Qed.

Lemma commit_work_only_host (fuel : nat) (fiber : option nat) (s s' : PyGui) :
  commit_work fuel fiber s = Ok s' -> only_host s s'.
Proof.
  revert fiber s s'. induction fuel as [|fuel IH]; intros [r|] s s' H;
    cbn [commit_work] in H;
    try discriminate H; try (injection H as <-; apply only_host_refl).
  inv_bind H. inv_bind H. inv_bind H. inv_bind H.
  eapply only_host_trans; [|eapply IH; eassumption].
  eapply only_host_trans; [|eapply IH; eassumption].
  destruct (f_effect_tag a) as [[| |]|], (f_dom a) as [dom|];
    try (injection E1 as <-; first [apply only_host_emit | apply only_host_refl]);
    try (eapply commit_deletion_only_host; eassumption).
  inv_bind E1. inv_bind E1. injection E1 as <-. apply only_host_emit.
Qed.

Lemma commit_deletions_only_host (fuel : nat) (ds : list nat) (s s' : PyGui) :
  commit_deletions fuel ds s = Ok s' -> only_host s s'.
Proof.
  revert s. induction ds as [|d ds IH]; intros s H; cbn [commit_deletions] in H.
  - injection H as <-. apply only_host_refl.
  - inv_bind H. eapply only_host_trans.
    + eapply commit_work_only_host. eassumption.
    + eapply IH. eassumption.
Qed.

(** [commit_root]: only the scene changes, then the work-in-progress
    root becomes the current root. *)
Lemma commit_root_inv (fuel : nat) (s s' : PyGui) :
  commit_root fuel s = Ok s' ->
  exists s2, only_host s s2
             /\ s' = set_wip_root None (set_current_root (wip_root s) s2).
Proof.
  unfold commit_root. intros H. inv_bind H. inv_bind H. inv_bind H. inv_bind H.
  injection H as <-.
  assert (Hh : only_host s a2).
  { eapply only_host_trans.
    - eapply commit_deletions_only_host. eassumption.
    - eapply commit_work_only_host. eassumption. }
  exists a2. split; [assumption|]. destruct Hh as [ops ->]. reflexivity.
Qed.

(** The calls of a commit, in order: those of the deletions, one
    deleted fiber after the other, then those of the new generation. *)
Lemma commit_root_deletions_first (fuel : nat) (s s' : PyGui) :
  commit_root fuel s = Ok s' ->
  exists w root s1 ops1 ops2,
    wip_root s = Some w
    /\ heap s !! w = Some root
    /\ commit_deletions fuel (deletions s) s = Ok s1
    /\ host s1 = host s ++ ops1
    /\ commit_work fuel (f_child root) s1 = Ok (emit ops2 s1)
    /\ host s' = host s ++ ops1 ++ ops2.
Proof.
  unfold commit_root. intros H. inv_bind H. inv_bind H. inv_bind H. inv_bind H.
  injection H as <-.
  destruct (commit_deletions_only_host _ _ _ _ E) as [ops1 ->].
  destruct (commit_work_only_host _ _ _ _ E2) as [ops2 ->].
  apply or_raise_Ok in E0. unfold get in E1. apply or_raise_Ok in E1.
  exists a0, a1, (emit ops1 s), ops1, ops2.
  split_and!; try assumption; try reflexivity.
  cbn. rewrite app_assoc. reflexivity.
Qed.

Section WorkLoop.

Variable components : nat -> dict -> comp.
Variable clock : nat -> Z.

Lemma work_loop_while_frame (fuel : nat) (deadline : Z) (should_yield : bool)
    (s s' : PyGui) :
  work_loop_while components clock fuel deadline should_yield s = Ok s' ->
  current_root s' = current_root s /\ wip_root s' = wip_root s.
Proof.
  revert should_yield s.
  induction fuel as [|fuel IH]; intros should_yield s H;
    cbn [work_loop_while] in H;
    destruct (next_unit_of_work s) as [unit|];
    try (injection H as <-; split; reflexivity);
    destruct should_yield;
    try (injection H as <-; split; reflexivity);
    try discriminate H.
  destruct (perform_unit_of_work components fuel unit s)
    as [[next s1]| |] eqn:E; try discriminate H.
  apply perform_unit_of_work_frame in E.
  destruct E as (_ & Hc & Hw & _).
  cbn [perf_counter_ns] in H. apply IH in H. cbn in H.
  destruct H as [H1 H2]. split; congruence.
Qed.

Lemma request_idle_work_frame (deadline : option Z) (s : PyGui) :
  current_root (request_idle_work clock deadline s) = current_root s
  /\ wip_root (request_idle_work clock deadline s) = wip_root s
  /\ host (request_idle_work clock deadline s) = host s
  /\ heap (request_idle_work clock deadline s) = heap s.
Proof.
  unfold request_idle_work.
  destruct deadline as [d|]; [destruct (d =? 0)%Z|]; repeat split.
Qed.

Lemma work_loop_finish_frame (s : PyGui) :
  current_root (work_loop_finish clock s) = current_root s
  /\ wip_root (work_loop_finish clock s) = wip_root s
  /\ host (work_loop_finish clock s) = host s.
Proof.
  unfold work_loop_finish.
  destruct (next_unit_of_work s).
  - pose proof (request_idle_work_frame None s). tauto.
  - destruct (render_callback s); repeat split.
Qed.

(** C5: however render requests, watcher callbacks and slices of the
    work loop follow each other, an event that changes the current
    root is a slice whose loop ended with no unit of work left; the
    new current root is the work-in-progress root of that moment,
    committed as a whole.  A slice that ends with work left changes
    neither the current root nor the scene after its loop: it only
    asks for another slice. *)
Theorem commit_only_when_no_work_remains (fuel : nat) (events : list event)
    (s : PyGui) (e : event) (s' : PyGui) :
  run components clock fuel events init = Ok s ->
  handle_event components clock fuel e s = Ok s' ->
  (current_root s' <> current_root s ->
   exists deadline mid committed,
     e = TimerTimeout
     /\ qt_timer s = Some (deadline, true)
     /\ work_loop_while components clock fuel deadline false
          (set_qt_timer (Some (deadline, false)) s) = Ok mid
     /\ next_unit_of_work mid = None
     /\ commit_root fuel mid = Ok committed
     /\ current_root s' = wip_root mid
     /\ s' = work_loop_finish clock committed)
  /\ (forall deadline mid,
        e = TimerTimeout ->
        qt_timer s = Some (deadline, true) ->
        work_loop_while components clock fuel deadline false
          (set_qt_timer (Some (deadline, false)) s) = Ok mid ->
        is_Some (next_unit_of_work mid) ->
        s' = request_idle_work clock None mid
        /\ current_root s' = current_root s
        /\ host s' = host mid).
Proof.
  intros _ He. split.
  - intros Hchg. destruct e as [element container callback| |]; cbn in He.
    + injection He as <-. exfalso. apply Hchg. reflexivity.
    + destruct (qt_timer s) as [[deadline [|]]|] eqn:Et;
        try (injection He as <-; exfalso; apply Hchg; reflexivity).
      unfold work_loop in He. inv_bind He. inv_bind He. injection He as <-.
      pose proof (work_loop_while_frame _ _ _ _ _ E) as [Hc Hw].
      pose proof (work_loop_finish_frame a0) as (Hfc & _ & _).
      unfold work_loop_commit in E0.
      destruct (bool_decide (next_unit_of_work a = None)) eqn:Hn;
        cbn [andb] in E0;
        [destruct (bool_decide (is_Some (wip_root a))) eqn:Hr|].
      * apply bool_decide_eq_true in Hn.
        exists deadline, a, a0. split_and!; try reflexivity; try assumption.
        rewrite Hfc. pose proof (commit_root_inv _ _ _ E0) as Hinv.
        destruct Hinv as (s2 & [ops ->] & ->). reflexivity.
      * injection E0 as <-. exfalso. apply Hchg. rewrite Hfc, Hc. reflexivity.
      * injection E0 as <-. exfalso. apply Hchg. rewrite Hfc, Hc. reflexivity.
    + unfold state_updated in He. inv_bind He. inv_bind He.
      injection He as <-. exfalso. apply Hchg.
      pose proof (request_idle_work_frame None
        (set_deletions []
           (set_next_unit_of_work (Some (List.length (heap s)))
              (set_wip_root (Some (List.length (heap s)))
                 (snd (alloc (mkFiber None (f_props a0) (f_children a0)
                                (f_dom a0) None (current_root s)
                                None None None None) s)))))) as (Hc & _).
      exact Hc.
  - intros deadline mid -> Et Hloop [unit Hunit]. cbn in He.
    rewrite Et in He. unfold work_loop in He. rewrite Hloop in He.
    cbn [mbind res_bind] in He. unfold work_loop_commit in He.
    rewrite Hunit in He. cbn in He. injection He as <-.
    unfold work_loop_finish. rewrite Hunit.
    pose proof (request_idle_work_frame None mid) as (Hc & _ & Hh & _).
    pose proof (work_loop_while_frame _ _ _ _ _ Hloop) as [Hc' _].
    split_and!; [reflexivity| |assumption].
    rewrite Hc, Hc'. reflexivity.
Qed.

End WorkLoop.

Section Deadline.

Variable components : nat -> dict -> comp.
Variable clock : nat -> Z.

(** [render] asks for a slice without naming a deadline. *)
Lemma render_deadline (element : VNode dict) (container : handle)
    (callback : option nat) (s : PyGui) :
  qt_timer (render clock element container callback s)
  = Some ((clock (ticks s) + 1000000 * 16)%Z, true).
Proof. reflexivity. Qed.

(** C8: a turn of the work loop.  The unit of work takes no clock
    reading; one reading [now] is taken after it, and the loop yields
    exactly when [deadline - now] is below 1000000 ns: with work left
    it then stops without committing and asks the timer for another
    slice, whose deadline is 16 ms after the reading taken then; above
    the threshold it goes on with the next unit.  A render request
    sets its deadline 16 ms after the reading it takes. *)
Theorem work_loop_yields_below_one_ms (fuel : nat) (deadline : Z)
    (s : PyGui) (unit : nat) (next : option nat) (s1 : PyGui) :
  next_unit_of_work s = Some unit ->
  perform_unit_of_work components fuel unit s = Ok (next, s1) ->
  let now := clock (ticks s) in
  let s2 := set_ticks (S (ticks s)) (set_next_unit_of_work next s1) in
  ticks s1 = ticks s
  /\ work_loop_while components clock (S fuel) deadline false s
     = work_loop_while components clock fuel deadline
         (deadline - now <? 1000000)%Z s2
  /\ ((deadline - now < 1000000)%Z -> is_Some next ->
      work_loop components clock (S fuel) deadline s
        = Ok (request_idle_work clock None s2)
      /\ qt_timer (request_idle_work clock None s2)
         = Some ((clock (S (ticks s)) + 16 * 1000000)%Z, true)
      /\ current_root (request_idle_work clock None s2) = current_root s
      /\ host (request_idle_work clock None s2) = host s1)
  /\ ((1000000 <= deadline - now)%Z ->
      work_loop_while components clock (S fuel) deadline false s
      = work_loop_while components clock fuel deadline false s2)
  /\ (forall element container callback s0,
        qt_timer (render clock element container callback s0)
        = Some ((clock (ticks s0) + 16 * 1000000)%Z, true)).
Proof.
  intros Hunit Hperf now s2.
  pose proof (perform_unit_of_work_frame _ _ _ _ _ _ Hperf)
    as (_ & Hc & _ & _ & _ & Ht & _).
  assert (Hstep :
    work_loop_while components clock (S fuel) deadline false s
    = work_loop_while components clock fuel deadline
        (deadline - now <? 1000000)%Z s2).
  { cbn [work_loop_while]. rewrite Hunit, Hperf.
    unfold perf_counter_ns. cbn. rewrite Ht. reflexivity. }
  split_and!.
  - exact Ht.
  - exact Hstep.
  - intros Hlow [unit' ->].
    assert (Hy : (deadline - now <? 1000000)%Z = true)
      by (apply Z.ltb_lt; assumption).
    assert (Hloop :
      work_loop_while components clock (S fuel) deadline false s = Ok s2).
    { rewrite Hstep, Hy. destruct fuel; reflexivity. }
    split_and!.
    + unfold work_loop. rewrite Hloop. reflexivity.
    + reflexivity.
    + cbn. exact Hc.
    + reflexivity.
  - intros Hhigh. rewrite Hstep.
    assert (Hn : (deadline - now <? 1000000)%Z = false)
      by (apply Z.ltb_ge; assumption).
    rewrite Hn. reflexivity.
  - intros. reflexivity.
Qed.

End Deadline.

(** ** The order of the units of work *)

Lemma shaped_unfold (s : PyGui) (parent : option nat) (r : nat)
    (kids : list fiber_tree) (sibling : option nat) :
  shaped s parent (FT r kids) sibling = true <->
  exists f, heap s !! r = Some f
            /\ f_parent f = parent /\ f_sibling f = sibling
            /\ f_child f = head (map root_of kids)
            /\ chained s r kids = true.
Proof.
  assert (Hc : forall ks,
            (fix chained (ks : list fiber_tree) : bool :=
               match ks with
               | [] => true
               | k :: ks' =>
                   shaped s (Some r) k (head (map root_of ks')) && chained ks'
               end) ks = chained s r ks).
  { induction ks as [|k ks IH]; [reflexivity|]. cbn [chained]. rewrite <- IH.
    reflexivity. }
  cbn [shaped]. rewrite Hc. destruct (heap s !! r) as [f|].
  - rewrite !andb_true_iff, !bool_decide_eq_true. split.
    + intros [[[H1 H2] H3] H4]. exists f. tauto.
    + intros (f' & [= <-] & H1 & H2 & H3 & H4). tauto.
  - split; [discriminate|]. intros (f' & Hf & _). discriminate.
Qed.

Lemma fiber_tree_ind_forall (P : fiber_tree -> Prop) :
  (forall r kids, Forall P kids -> P (FT r kids)) -> forall t, P t.
Proof.
  intros H. fix IH 1. intros [r kids]. apply H.
  induction kids as [|k kids IHk]; constructor; [apply IH|exact IHk].
Qed.

Lemma climb_next_sibling_up (s : PyGui) (o next : option nat) :
  climb s o next ->
  exists n, forall fuel, (n <= fuel)%nat -> next_sibling_up fuel o s = Ok next.
Proof.
  induction 1 as [|r f sibling Hr Hs|r f next Hr Hs _ [n IH]].
  - exists 0%nat. intros [|fuel] _; reflexivity.
  - exists 1%nat. intros [|fuel] Hle; [lia|].
    cbn [next_sibling_up]. unfold get. rewrite Hr. cbn. rewrite Hs. reflexivity.
  - exists (S n). intros [|fuel] Hle; [lia|].
    cbn [next_sibling_up]. unfold get. rewrite Hr. cbn. rewrite Hs.
    apply IH. lia.
Qed.

Lemma ancestors_climb (s : PyGui) (r : nat) (l : list fiber) :
  ancestors s r l -> climb s (Some r) (head (omap f_sibling l)).
Proof.
  induction 1 as [r f Hr Hp|r f p l Hr Hp _ IH]; cbn.
  - destruct (f_sibling f) as [sib|] eqn:Hs; cbn.
    + eapply climb_sibling; eassumption.
    + eapply climb_parent; try eassumption. rewrite Hp. constructor.
  - destruct (f_sibling f) as [sib|] eqn:Hs; cbn.
    + eapply climb_sibling; eassumption.
    + eapply climb_parent; try eassumption. rewrite Hp. exact IH.
Qed.

(** The successor computed by the code is the one of the design. *)
Lemma next_unit_successor_spec (s : PyGui) (r : nat) (l : list fiber) :
  ancestors s r l ->
  exists n, forall fuel, (n <= fuel)%nat ->
    next_unit fuel r s = Ok (successor_spec l).
Proof.
  intros Ha. pose proof (ancestors_climb s r l Ha) as Hc.
  destruct (climb_next_sibling_up _ _ _ Hc) as [n Hn].
  exists n. intros fuel Hle. unfold next_unit, get.
  destruct Ha as [r f Hr Hp|r f p l Hr Hp Ha]; rewrite Hr; cbn [mbind res_bind or_raise];
    unfold successor_spec; destruct (f_child f); try reflexivity;
    apply Hn; assumption.
Qed.

(** [perform_unit_of_work] returns the successor of its fiber, taken
    on the arena as the unit leaves it. *)
Lemma perform_unit_of_work_next (components : nat -> dict -> comp)
    (fuel fiber : nat) (s s' : PyGui) (next : option nat) :
  perform_unit_of_work components fuel fiber s = Ok (next, s') ->
  next_unit fuel fiber s' = Ok next.
Proof.
  unfold perform_unit_of_work. intros H.
  inv_bind H. inv_bind H. inv_bind H. injection H as <- <-. assumption.
Qed.

Lemma walk_rel_walk (s : PyGui) (cur : option nat) (l : list nat) :
  walk_rel s cur l ->
  exists n, forall fuel, (n <= fuel)%nat -> walk fuel cur s = Ok l.
Proof.
  induction 1 as [|r f child rest Hr Hc _ [n IH]
                  |r f next rest Hr Hc Hup _ [n IH]].
  - exists 0%nat. intros [|fuel] _; reflexivity.
  - exists (S n). intros [|fuel] Hle; [lia|].
    cbn [walk]. unfold next_unit, get. rewrite Hr. cbn. rewrite Hc. cbn.
    rewrite IH by lia. reflexivity.
  - destruct (climb_next_sibling_up _ _ _ Hup) as [m Hm].
    exists (S (Nat.max n m)). intros [|fuel] Hle; [lia|].
    cbn [walk]. unfold next_unit, get. rewrite Hr. cbn. rewrite Hc.
    rewrite Hm by lia. cbn. rewrite IH by lia. reflexivity.
Qed.

(** From the root of a subtree, the walk goes through the subtree in
    pre-order and then on to wherever the climb from the root leads. *)
Lemma walk_rel_subtree (s : PyGui) (t : fiber_tree) :
  forall parent sibling k rest,
    shaped s parent t sibling = true ->
    climb s (Some (root_of t)) k ->
    walk_rel s k rest ->
    walk_rel s (Some (root_of t)) (preorder t ++ rest).
Proof.
  induction t as [r kids IHkids] using fiber_tree_ind_forall.
  intros parent sibling k rest Hsh Hk Hrest.
  apply shaped_unfold in Hsh.
  destruct Hsh as (f & Hr & Hp & Hs & Hc & Hch).
  cbn [root_of preorder] in *.
  assert (Hkids : forall ks, Forall
            (fun t => forall parent sibling k rest,
               shaped s parent t sibling = true ->
               climb s (Some (root_of t)) k ->
               walk_rel s k rest ->
               walk_rel s (Some (root_of t)) (preorder t ++ rest)) ks ->
            chained s r ks = true ->
            match ks with
            | [] => True
            | c :: _ => walk_rel s (Some (root_of c)) (flat_map preorder ks ++ rest)
            end).
  { induction ks as [|c cs IHcs]; intros Hall Hchain; [exact I|].
    apply Forall_cons in Hall. destruct Hall as [Pc Pcs].
    cbn [chained] in Hchain. apply andb_true_iff in Hchain.
    destruct Hchain as [Hshc Hchcs].
    cbn [flat_map]. rewrite <- app_assoc.
    pose proof Hshc as Hshc'.
    destruct c as [rc kc]. apply shaped_unfold in Hshc'.
    destruct Hshc' as (fc & Hrc & Hpc & Hsc & _ & _).
    destruct cs as [|c' cs']; cbn [map head] in Hsc.
    - eapply (Pc _ _ k); [exact Hshc| |exact Hrest].
      cbn [root_of]. eapply climb_parent; [exact Hrc|exact Hsc|].
      rewrite Hpc. exact Hk.
    - eapply (Pc _ _ (Some (root_of c'))); [exact Hshc| |exact (IHcs Pcs Hchcs)].
      cbn [root_of]. eapply climb_sibling; [exact Hrc|exact Hsc]. }
  specialize (Hkids kids IHkids Hch).
  destruct kids as [|c cs].
  - cbn. eapply walk_up; eassumption.
  - cbn [map head] in Hc. eapply walk_child; [exact Hr|exact Hc|exact Hkids].
Qed.

Lemma chained_In (s : PyGui) (r : nat) (ks : list fiber_tree) (c : fiber_tree) :
  chained s r ks = true -> In c ks ->
  exists sibling, shaped s (Some r) c sibling = true.
Proof.
  induction ks as [|k ks IH]; intros Hch Hin; [destruct Hin|].
  cbn [chained] in Hch. apply andb_true_iff in Hch. destruct Hch as [Hk Hks].
  destruct Hin as [->|Hin]; [eauto|]. apply IH; assumption.
Qed.

(** Every fiber of a generation shaped as a tree has its ancestors up
    to the root. *)
Lemma shaped_ancestors (s : PyGui) (t : fiber_tree) :
  forall parent sibling lp,
    shaped s parent t sibling = true ->
    match parent with
    | None => True
    | Some p => ancestors s p lp
    end ->
    forall r, In r (preorder t) -> exists l, ancestors s r l.
Proof.
  induction t as [r0 kids IHkids] using fiber_tree_ind_forall.
  intros parent sibling lp Hsh Hup r Hin.
  apply shaped_unfold in Hsh.
  destruct Hsh as (f & Hr & Hp & _ & _ & Hch).
  assert (Hr0 : exists l0, ancestors s r0 (f :: l0)).
  { destruct parent as [p|].
    - exists lp. eapply ancestors_parent; eassumption.
    - exists []. apply ancestors_root; assumption. }
  destruct Hr0 as [l0 Hr0].
  cbn [preorder] in Hin. destruct Hin as [<-|Hin]; [eauto|].
  apply in_flat_map in Hin. destruct Hin as (c & Hc & Hin).
  destruct (chained_In _ _ _ _ Hch Hc) as [sib Hshc].
  rewrite List.Forall_forall in IHkids.
  exact (IHkids c Hc (Some r0) sib (f :: l0) Hshc Hr0 r Hin).
Qed.

(** C7: on a generation shaped as a tree, the successor of every fiber
    is its first child if it has one, else the next sibling of the
    nearest fiber among itself and its ancestors that has one, else
    nothing; this is what [perform_unit_of_work] returns; and going
    from successor to successor from the root visits the fibers in
    pre-order, depth first and left to right, and then stops. *)
Theorem unit_of_work_order (s : PyGui) (t : fiber_tree) :
  shaped s None t None = true ->
  (forall r, In r (preorder t) ->
     exists l n,
       ancestors s r l
       /\ forall fuel, (n <= fuel)%nat ->
            next_unit fuel r s = Ok (successor_spec l))
  /\ (forall components fuel fiber s0 s1 next,
        perform_unit_of_work components fuel fiber s0 = Ok (next, s1) ->
        next_unit fuel fiber s1 = Ok next)
  /\ exists n, forall fuel, (n <= fuel)%nat ->
       walk fuel (Some (root_of t)) s = Ok (preorder t).
Proof.
  intros Hsh. split_and!.
  - intros r Hin.
    destruct (shaped_ancestors s t None None [] Hsh I r Hin) as [l Hl].
    destruct (next_unit_successor_spec s r l Hl) as [n Hn].
    exists l, n. split; assumption.
  - apply perform_unit_of_work_next.
  - apply walk_rel_walk.
    rewrite <- (app_nil_r (preorder t)).
    eapply walk_rel_subtree; [exact Hsh| |constructor].
    destruct t as [r kids]. apply shaped_unfold in Hsh.
    destruct Hsh as (f & Hr & Hp & Hs & _ & _). cbn [root_of].
    eapply climb_parent; [exact Hr|exact Hs|]. rewrite Hp. constructor.
Qed.

(** ** Renders that go wrong *)

(** C2 at its failing input: the previous props hold the listener
    [onClick], the next props hold nothing, and the differ makes no
    call at all.  So when a button is rendered with the listener and
    then without it, the commit of its [UPDATE] fiber leaves the
    listener on the scene object. *)
Theorem update_dom_dropped_listener_stays :
  update_dom (Node 0) [("onClick", VFun 1)] [] = []
  /\ exists s1 s2,
       run demo still 64
         [Render (h (Tag "button") [("onClick", VFun 1)] []) (Container 0) None;
          TimerTimeout] init = Ok s1
       /\ run demo still 64
            [Render (h (Tag "button") [] []) (Container 0) None; TimerTimeout] s1
          = Ok s2
       /\ host_since init s1
          = [CreateElement (Node 0) (Tag "button");
             AddEventHandler (Node 0) "click" (VFun 1);
             Add (Container 0) (Node 0)]
       /\ f_effect_tag <$> heap s2 !! 3%nat = Some (Some UPDATE)
       /\ f_dom <$> heap s2 !! 3%nat = Some (Some (Node 0))
       /\ current_root s2 = Some 2%nat
       /\ host_since s1 s2 = [].
Proof.
  split; [reflexivity|].
  eexists _, _.
  split; [vm_compute; reflexivity|].
  split; [vm_compute; reflexivity|].
  split_and!; vm_compute; reflexivity.
Qed.

(** C1 at its failing input: the keyed items [a, b, c] are rendered and
    then rendered again as [c, a, b].  The reconciler pairs old and new
    children by position: the scene objects stay where they are and
    their content is overwritten, so item [c] ends up on the object
    item [a] had, not on its own. *)
Theorem reorder_matches_by_position :
  exists s1 s2,
    run demo still 64
      [Render (h (Comp 0) [("items", VStr "abc")] []) (Container 0) None;
       TimerTimeout] init = Ok s1
    /\ run demo still 64
         [Render (h (Comp 0) [("items", VStr "cab")] []) (Container 0) None;
          TimerTimeout] s1 = Ok s2
    /\ item_handles 64 s1
       = [(VStr "a", Some (Node 1)); (VStr "b", Some (Node 2));
          (VStr "c", Some (Node 3))]
    /\ item_handles 64 s2
       = [(VStr "c", Some (Node 1)); (VStr "a", Some (Node 2));
          (VStr "b", Some (Node 3))]
    /\ host_since s1 s2
       = [SetAttribute (Node 0) "items" (VStr "cab");
          SetAttribute (Node 1) "content" (VStr "c");
          SetAttribute (Node 2) "content" (VStr "a");
          SetAttribute (Node 3) "content" (VStr "b")].
Proof.
  eexists _, _.
  split; [vm_compute; reflexivity|].
  split; [vm_compute; reflexivity|].
  split_and!; vm_compute; reflexivity.
Qed.

(** C6 at its failing input: a group holding a mesh is replaced by a
    scene holding a mesh.  The commit of the deleted group goes on into
    the children of the group: after the group (object 0) is removed
    from the container, the mesh it held (object 1) is added under it
    once more, before the new generation is placed. *)
Theorem deletion_commit_reaches_old_children :
  exists s1 s2,
    run demo still 64
      [Render (h (Tag "group") [] [h (Tag "mesh") [] []]) (Container 0) None;
       TimerTimeout] init = Ok s1
    /\ run demo still 64
         [Render (h (Tag "scene") [] [h (Tag "mesh") [] []]) (Container 0) None;
          TimerTimeout] s1 = Ok s2
    /\ host_since init s1
       = [CreateElement (Node 0) (Tag "group");
          CreateElement (Node 1) (Tag "mesh");
          Add (Container 0) (Node 0);
          Add (Node 0) (Node 1)]
    /\ deletions s2 = [1%nat]
    /\ host_since s1 s2
       = [CreateElement (Node 2) (Tag "scene");
          CreateElement (Node 3) (Tag "mesh");
          Remove (Container 0) (Node 0);
          Add (Node 0) (Node 1);
          Add (Container 0) (Node 2);
          Add (Node 2) (Node 3)].
Proof.
  eexists _, _.
  split; [vm_compute; reflexivity|].
  split; [vm_compute; reflexivity|].
  split_and!; vm_compute; reflexivity.
Qed.

(** [use_state] with an old hook at the cursor: the state of the old
    hook with its queued actions applied in order; the initial value
    plays no part. *)
Lemma use_state_old_hook (initial : value) (s : PyGui) (w a i : nat)
    (f alternate : fiber) (hooks old_hooks : list hook) (old_hook : hook) :
  wip_fiber s = Some w -> heap s !! w = Some f -> f_hooks f = Some hooks ->
  f_alternate f = Some a -> heap s !! a = Some alternate ->
  f_hooks alternate = Some old_hooks ->
  hook_index s = Some i -> old_hooks !! i = Some old_hook ->
  exists s',
    use_state initial s
      = Ok (fold_left (fun st action => action st) (queue old_hook)
              (state old_hook), s')
    /\ hook_index s' = Some (S i).
Proof.
  intros Hw Hf Hh Ha Halt Hoh Hi Hold.
  unfold use_state, old_hook_of, get.
  rewrite Hw. cbn -[modify]. rewrite Hf. cbn -[modify].
  rewrite Ha, Halt. cbn -[modify]. rewrite Hoh, Hi.
  destruct old_hooks as [|h0 hs]; [discriminate Hold|].
  cbn -[modify lookup]. rewrite Hold. cbn -[modify]. rewrite Hh.
  cbn. rewrite Hi. cbn.
  eexists. split; reflexivity.
Qed.

(** [use_state] with no alternate, or an alternate with no hooks:
    the state starts from the initial value. *)
Lemma use_state_initial (initial : value) (s : PyGui) (w i : nat)
    (f : fiber) (hooks : list hook) :
  wip_fiber s = Some w -> heap s !! w = Some f -> f_hooks f = Some hooks ->
  hook_index s = Some i ->
  (f_alternate f = None
   \/ exists a alternate,
        f_alternate f = Some a /\ heap s !! a = Some alternate
        /\ (f_hooks alternate = None \/ f_hooks alternate = Some [])) ->
  exists s', use_state initial s = Ok (initial, s')
             /\ hook_index s' = Some (S i).
Proof.
  intros Hw Hf Hh Hi Hno.
  unfold use_state, old_hook_of, get.
  rewrite Hw. cbn -[modify]. rewrite Hf. cbn -[modify].
  destruct Hno as [Ha|(a & alternate & Ha & Halt & [Hoh|Hoh])];
    rewrite Ha; try rewrite Halt; cbn -[modify]; try rewrite Hoh;
    cbn -[modify]; rewrite Hh; cbn; rewrite Hi; cbn;
    eexists; split; reflexivity.
Qed.

(** [use_state] with an alternate whose hooks end before the cursor. *)
Lemma use_state_out_of_range (initial : value) (s : PyGui) (w a i : nat)
    (f alternate : fiber) (old_hooks : list hook) :
  wip_fiber s = Some w -> heap s !! w = Some f ->
  f_alternate f = Some a -> heap s !! a = Some alternate ->
  f_hooks alternate = Some old_hooks -> old_hooks <> [] ->
  hook_index s = Some i -> old_hooks !! i = None ->
  use_state initial s = Raise IndexError.
Proof.
  intros Hw Hf Ha Halt Hoh Hne Hi Hold.
  unfold use_state, old_hook_of, get.
  rewrite Hw. cbn -[modify]. rewrite Hf. cbn -[modify].
  rewrite Ha, Halt. cbn -[modify]. rewrite Hoh, Hi.
  destruct old_hooks as [|h0 hs]; [contradiction|].
  cbn -[modify lookup]. rewrite Hold. reflexivity.
Qed.

(** C9 at its failing input: a component asked for one piece of state
    in the previous render and asks for two in this one.  The alternate
    has a hook list with nothing at the cursor, and the second call of
    [use_state] raises [IndexError] instead of starting from its
    initial value. *)
Theorem use_state_past_the_old_hooks :
  exists s1,
    run demo still 64
      [Render (h (Comp 2) [("more", VInt 0)] []) (Container 0) None;
       TimerTimeout] init = Ok s1
    /\ (f_hooks <$> heap s1 !! 1%nat) = Some (Some [mkHook (VInt 0) [] 0])
    /\ run demo still 64
         [Render (h (Comp 2) [("more", VInt 1)] []) (Container 0) None;
          TimerTimeout] s1 = Raise IndexError.
Proof.
  eexists.
  split; [vm_compute; reflexivity|].
  split; vm_compute; reflexivity.
Qed.

(** ** Hooks and their watchers *)

(** C3, as the code has it: a call of [use_state] puts one hook at the
    end of the hooks of the fiber being rendered and registers one
    subscription for it, the one the hook records; and a commit,
    deletions included, cancels no subscription. *)
Theorem use_state_one_watcher_kept_by_commit (initial v : value)
    (s s1 : PyGui) :
  use_state initial s = Ok (v, s1) ->
  (exists w f hooks,
     wip_fiber s = Some w
     /\ heap s !! w = Some f
     /\ f_hooks f = Some hooks
     /\ f_hooks <$> heap s1 !! w
        = Some (Some (hooks ++ [mkHook v [] (List.length (watchers s))]))
     /\ watchers s1 = watchers s ++ [true])
  /\ (forall fuel s2 s3, commit_root fuel s2 = Ok s3 -> watchers s3 = watchers s2).
Proof.
  intros H. split.
  - unfold use_state in H.
    inv_bind H. inv_bind H. inv_bind H. cbn -[modify] in H.
    inv_bind H. inv_bind H. injection H as <- <-.
    apply or_raise_Ok in E, E0, E2.
    exists a, a0, a2. split_and!; try assumption; try reflexivity.
    change (heap (set_hook_index ?i ?x)) with (heap x).
    rewrite lookup_modify_eq. cbn. rewrite E0. reflexivity.
  - intros fuel s2 s3 Hc. apply commit_root_inv in Hc.
    destruct Hc as (s4 & [ops ->] & ->). reflexivity.
Qed.

Lemma use_state_one_watcher_kept_by_commit_witness :
  let fiber := mkFiber (Some (Comp 1)) [] [] None None None (Some PLACEMENT)
                 None None (Some []) in
  let s := set_hook_index (Some 0%nat)
             (set_wip_fiber (Some 0%nat) (set_heap [fiber] init)) in
  exists s1,
    use_state (VInt 7) s = Ok (VInt 7, s1)
    /\ watchers s1 = [true]
    /\ forall fuel s2 s3, commit_root fuel s2 = Ok s3 -> watchers s3 = watchers s2.
Proof.
  intros fiber s. eexists. split; [vm_compute; reflexivity|].
  split; [reflexivity|].
  refine (proj2 (use_state_one_watcher_kept_by_commit (VInt 7) (VInt 7) s _ _)).
  vm_compute. reflexivity.
Defined.

(** C3, as stated, fails: a counter with one hook is rendered and then
    replaced by a label.  Its fiber is tagged [DELETION] and its
    deletion is committed (the scene object is removed from the
    container), and the subscription of its hook is still live. *)
Lemma deleted_fiber_keeps_its_watcher :
  exists s1 s2,
    run demo still 64
      [Render (h (Comp 1) [] []) (Container 0) None; TimerTimeout] init = Ok s1
    /\ run demo still 64
         [Render (h (Tag "label") [] []) (Container 0) None; TimerTimeout] s1 = Ok s2
    /\ f_hooks <$> heap s1 !! 1%nat = Some (Some [mkHook (VInt 0) [] 0])
    /\ f_effect_tag <$> heap s2 !! 1%nat = Some (Some DELETION)
    /\ deletions s2 = [1%nat]
    /\ head (host_since s1 s2) = Some (CreateElement (Node 1) (Tag "label"))
    /\ host_since s1 s2 !! 1%nat = Some (Remove (Container 0) (Node 0))
    /\ current_root s2 = Some 3%nat
    /\ watchers s2 !! 0%nat = Some true.
Proof.
  eexists _, _.
  split; [vm_compute; reflexivity|].
  split; [vm_compute; reflexivity|].
  split_and!; vm_compute; reflexivity.
Qed.

(** ** The properties at work on the programs above *)

Lemma reconcile_step_type_rule_witness :
  let old := mkFiber (Some (Tag "item")) [("content", VStr "a")] []
               (Some (Node 1)) (Some 0%nat) None (Some PLACEMENT)
               None None None in
  let root := mkFiber None [] [] (Some (Container 0)) None None None
                (Some 1%nat) None None in
  let wip := mkFiber None [] [] (Some (Container 0)) None (Some 0%nat) None
               None None None in
  let s := set_heap [root; old; wip] init in
  exists s',
    reconcile_step 2 0 (Some (item "c")) (Some 1%nat) None s
      = Ok (Some 3%nat, None, s')
    /\ f_effect_tag <$> heap s' !! 3%nat = Some (Some UPDATE)
    /\ f_dom <$> heap s' !! 3%nat = Some (Some (Node 1)).
Proof.
  intros old root wip s.
  destruct (reconcile_step_type_rule 2 0 (item "c") 1 None s old (Tag "item"))
    as (s' & Hstep & Hsame & _).
  - vm_compute. reflexivity.
  - vm_compute. reflexivity.
  - intros Hc. exfalso. apply Hc. reflexivity.
  - exists s'. split; [exact Hstep|].
    destruct (Hsame eq_refl) as (Ht & Hd & _). split; [exact Ht|exact Hd].
Defined.

Lemma commit_only_when_no_work_remains_witness :
  exists s s',
    run demo still 64
      [Render (h (Comp 0) [("items", VStr "abc")] []) (Container 0) None] init
      = Ok s
    /\ handle_event demo still 64 TimerTimeout s = Ok s'
    /\ current_root s' <> current_root s
    /\ exists deadline mid committed,
         TimerTimeout = TimerTimeout
         /\ qt_timer s = Some (deadline, true)
         /\ work_loop_while demo still 64 deadline false
              (set_qt_timer (Some (deadline, false)) s) = Ok mid
         /\ next_unit_of_work mid = None
         /\ commit_root 64 mid = Ok committed
         /\ current_root s' = wip_root mid
         /\ s' = work_loop_finish still committed.
Proof.
  eexists _, _.
  split; [vm_compute; reflexivity|].
  split; [vm_compute; reflexivity|].
  split; [vm_compute; discriminate|].
  refine (proj1 (commit_only_when_no_work_remains demo still 64
            [Render (h (Comp 0) [("items", VStr "abc")] []) (Container 0) None]
            _ TimerTimeout _ _ _) _).
  - vm_compute. reflexivity.
  - vm_compute. reflexivity.
  - vm_compute. discriminate.
Defined.

Lemma work_loop_yields_below_one_ms_witness :
  exists s next s1,
    run demo jumpy 64
      [Render (h (Comp 0) [("items", VStr "abc")] []) (Container 0) None] init
      = Ok s
    /\ next_unit_of_work s = Some 0%nat
    /\ perform_unit_of_work demo 64 0 s = Ok (next, s1)
    /\ qt_timer s = Some (16000000%Z, true)
    /\ work_loop demo jumpy 65 16000000 s
       = Ok (request_idle_work jumpy None
               (set_ticks (S (ticks s)) (set_next_unit_of_work next s1)))
    /\ qt_timer (request_idle_work jumpy None
                   (set_ticks (S (ticks s)) (set_next_unit_of_work next s1)))
       = Some (56000000%Z, true).
Proof.
  eexists _, _, _.
  split; [vm_compute; reflexivity|].
  split; [vm_compute; reflexivity|].
  split; [vm_compute; reflexivity|].
  split; [vm_compute; reflexivity|].
  match goal with
  | |- work_loop _ _ _ _ ?s = Ok (request_idle_work _ _
         (set_ticks _ (set_next_unit_of_work ?next ?s1))) /\ _ =>
      destruct (work_loop_yields_below_one_ms demo jumpy 64 16000000 s 0
                  next s1) as (_ & _ & Hyield & _)
  end.
  - vm_compute. reflexivity.
  - vm_compute. reflexivity.
  - destruct Hyield as (Hloop & Htimer & _).
    + vm_compute. reflexivity.
    + vm_compute. eexists. reflexivity.
    + split; [exact Hloop|]. vm_compute. reflexivity.
Defined.

Lemma unit_of_work_order_witness :
  exists s,
    run demo still 64
      [Render (h (Comp 0) [("items", VStr "abc")] []) (Container 0) None;
       TimerTimeout] init = Ok s
    /\ shaped s None
         (FT 0 [FT 1 [FT 2 [FT 3 []; FT 4 []; FT 5 []]]]) None = true
    /\ exists n, forall fuel, (n <= fuel)%nat ->
         walk fuel (Some 0%nat) s = Ok [0; 1; 2; 3; 4; 5]%nat.
Proof.
  eexists.
  split; [vm_compute; reflexivity|].
  split; [vm_compute; reflexivity|].
  refine (proj2 (proj2 (unit_of_work_order _
            (FT 0 [FT 1 [FT 2 [FT 3 []; FT 4 []; FT 5 []]]]) _))).
  vm_compute. reflexivity.
Defined.

(** * More on the differ *)


(** In a dict no key occurs twice, so an entry is what a lookup of its
    key finds. *)
Lemma dict_lookup_In (d : dict) (k : string) (v : value) :
  NoDup (map fst d) -> In (k, v) d -> dict_lookup k d = Some v.
Proof.
  induction d as [|[k' v'] d IH]; intros Hnd Hin; [destruct Hin|].
  simpl in Hnd. apply NoDup_cons in Hnd. destruct Hnd as [Hk Hnd].
  simpl. destruct Hin as [[= -> ->]|Hin].
  - rewrite String.eqb_refl. reflexivity.
  - destruct (String.eqb k' k) eqn:E.
    + apply String.eqb_eq in E. subst k'. exfalso. apply Hk.
      apply list_elem_of_In. apply (in_map fst) in Hin. exact Hin.
    + apply IH; assumption.
Qed.

Lemma dict_mem_true (k : string) (d : dict) :
  dict_mem k d = true <-> is_Some (dict_lookup k d).
Proof. unfold dict_mem. apply bool_decide_eq_true. Qed.


Lemma is_new_true (v : value) (d : dict) (k : string) :
  is_new v d k = true <-> v <> dict_get d k.
Proof.
  unfold is_new. rewrite negb_true_iff. apply bool_decide_eq_false.
Qed.



Ltac flat_cases H :=
  let Hin := fresh "Hin" in
  let k := fresh "k" in
  let v := fresh "v" in
  apply in_flat_map in H; destruct H as ([k v] & Hin & H);
  repeat match type of H with
    | In _ (if ?c then _ else _) => destruct c eqn:?
    end;
  simpl in H; try contradiction;
  destruct H as [H|[]]; try discriminate H.

(** X2: which properties the differ writes.  A property of the next
    props is set exactly when its value differs from what [get] finds
    in the previous props (so a new property whose value is [None] is
    not set); a property of the previous props is cleared exactly when
    its key is gone from the next props. *)
Theorem update_dom_properties (dom : handle) (prev_props next_props : dict)
    (key : string) (val : value) :
  (In (SetAttribute dom key val) (update_dom dom prev_props next_props)
   <-> In (key, val) next_props /\ is_property key = true
       /\ val <> dict_get prev_props key)
  /\ (In (ClearAttribute dom key val) (update_dom dom prev_props next_props)
      <-> In (key, val) prev_props /\ is_property key = true
          /\ dict_mem key next_props = false).
Proof.
  unfold update_dom. rewrite !in_app_iff. split; split.
  - intros [H|[H|[H|H]]]; flat_cases H.
    injection H as <- <-. split; [assumption|].
    rewrite negb_false_iff in *. split; [assumption|].
    apply is_new_true. assumption.
  - intros (Hin & Hp & Hne). right. right. left.
    unfold set_new_properties. apply in_flat_map. exists (key, val).
    split; [assumption|]. rewrite Hp. cbn.
    apply is_new_true in Hne. rewrite Hne. left. reflexivity.
  - intros [H|[H|[H|H]]]; flat_cases H.
    injection H as <- <-. rewrite negb_false_iff in *. tauto.
  - intros (Hin & Hp & Hm). right. left.
    unfold remove_old_properties. apply in_flat_map. exists (key, val).
    split; [assumption|]. rewrite Hp, Hm. left. reflexivity.
Qed.


(** X4: a listener whose value changed is taken off the scene object
    before the new value is put on. *)
Theorem update_dom_replaces_listener (dom : handle) (prev_props next_props : dict)
    (name : string) (old new : value) :
  NoDup (map fst prev_props) -> NoDup (map fst next_props) ->
  In (name, old) prev_props -> In (name, new) next_props ->
  is_event name = true -> old <> new ->
  exists l1 l2 l3,
    update_dom dom prev_props next_props
    = l1 ++ RemoveEventHandler dom (event_type_of name) old
         :: l2 ++ AddEventHandler dom (event_type_of name) new :: l3.
Proof.
  intros Hp Hn Hold Hnew He Hne.
  pose proof (dict_lookup_In _ _ _ Hp Hold) as Lp.
  pose proof (dict_lookup_In _ _ _ Hn Hnew) as Ln.
  assert (Hr : In (RemoveEventHandler dom (event_type_of name) old)
                 (remove_old_listeners dom prev_props next_props)).
  { unfold remove_old_listeners. apply in_flat_map. exists (name, old).
    split; [assumption|]. rewrite He. cbn.
    assert (Hm : dict_mem name next_props = true)
      by (apply dict_mem_true; rewrite Ln; eexists; reflexivity).
    assert (Hi : is_new old next_props name = true)
      by (apply is_new_true; unfold dict_get; rewrite Ln; exact Hne).
    rewrite Hm, Hi. left. reflexivity. }
  assert (Ha : In (AddEventHandler dom (event_type_of name) new)
                 (add_new_listeners dom prev_props next_props)).
  { unfold add_new_listeners. apply in_flat_map. exists (name, new).
    split; [assumption|]. rewrite He. cbn.
    assert (Hi : is_new (dict_get prev_props name) next_props name = true)
      by (apply is_new_true; unfold dict_get; rewrite Lp, Ln; exact Hne).
    rewrite Hi. left. reflexivity. }
  apply in_split in Hr. destruct Hr as (r1 & r2 & Hr).
  apply in_split in Ha. destruct Ha as (a1 & a2 & Ha).
  unfold update_dom. rewrite Hr, Ha.
  exists r1,
    (r2 ++ remove_old_properties dom prev_props next_props
        ++ set_new_properties dom prev_props next_props ++ a1), a2.
  rewrite <- app_assoc. cbn. do 2 f_equal. rewrite <- !app_assoc. reflexivity.
Qed.

Lemma update_dom_replaces_listener_witness :
  update_dom (Node 0) [("text", VStr "a"); ("onClick", VFun 1)]
    [("onClick", VFun 2); ("text", VStr "b")]
  = [RemoveEventHandler (Node 0) "click" (VFun 1);
     SetAttribute (Node 0) "text" (VStr "b");
     AddEventHandler (Node 0) "click" (VFun 2)].
Proof.
  destruct (update_dom_replaces_listener (Node 0)
              [("text", VStr "a"); ("onClick", VFun 1)]
              [("onClick", VFun 2); ("text", VStr "b")]
              "onClick" (VFun 1) (VFun 2)) as (l1 & l2 & l3 & _).
  - apply (bool_decide_unpack _). vm_compute. exact I.
  - apply (bool_decide_unpack _). vm_compute. exact I.
  - simpl. right. left. reflexivity.
  - simpl. left. reflexivity.
  - reflexivity.
  - discriminate.
  - reflexivity.
Defined.

(** * More on the element factory *)

(** X5: the key is used up by the first element made from a dict: a
    second [create_element] on the same dict gets no key. *)
Theorem create_element_twice_loses_key (t1 t2 : vtype) (r : nat)
    (cs1 cs2 : list (VNode nat)) (st : list dict) (d : dict) :
  st !! r = Some d ->
  exists v1 st1 v2 st2,
    Element.create_element t1 (Some r) cs1 st = Some (v1, st1)
    /\ Element.create_element t2 (Some r) cs2 st1 = Some (v2, st2)
    /\ key v1 = dict_lookup "key" d
    /\ key v2 = None
    /\ st2 !! r = Some (dict_remove "key" d).
Proof.
  intros Hr.
  pose proof (lookup_lt_Some _ _ _ Hr) as Hlt.
  set (d' := dict_remove "key" d).
  assert (Hst1 : forall st1,
            st1 = (if bool_decide (d' = []) then <[r := d']> st ++ [[]]
                   else <[r := d']> st) ->
            st1 !! r = Some d').
  { intros st1 ->. destruct (bool_decide (d' = [])).
    - rewrite lookup_app_l by (rewrite length_insert; assumption).
      apply list_lookup_insert_eq. assumption.
    - apply list_lookup_insert_eq. assumption. }
  pose proof (create_element_some t1 r cs1 st d Hr) as H1. cbv zeta in H1.
  fold d' in H1.
  specialize (Hst1 _ eq_refl).
  pose proof (create_element_some t2 r cs2 _ d' Hst1) as H2. cbv zeta in H2.
  assert (Hd' : dict_remove "key" d' = d')
    by (apply dict_remove_absent, dict_lookup_remove).
  rewrite Hd' in H2.
  eexists _, _, _, _. split; [exact H1|]. split; [exact H2|].
  cbn [key]. split_and!; [reflexivity|apply dict_lookup_remove|].
  destruct (bool_decide (d' = [])).
  - rewrite lookup_app_l.
    + apply list_lookup_insert_eq. eapply lookup_lt_Some. exact Hst1.
    + rewrite length_insert. eapply lookup_lt_Some. exact Hst1.
  - apply list_lookup_insert_eq. eapply lookup_lt_Some. exact Hst1.
Qed.

(** * More on the render phase *)

Lemma render_steps_trans (s1 s2 s3 : PyGui) :
  render_steps s1 s2 -> render_steps s2 s3 -> render_steps s1 s3.
Proof.
  induction 1 as [|a b c Hab _ IH]; intros H; [exact H|].
  eapply rs_step; [exact Hab|]. apply IH. exact H.
Qed.

Lemma rs_one (s s' : PyGui) : prim s s' -> render_steps s s'.
Proof. intros H. eapply rs_step; [exact H|apply rs_refl]. Qed.

Lemma keeps_set_child (c : option nat) : keeps (set_child c).
Proof. intros f. repeat split. Qed.
Lemma keeps_set_sibling (c : option nat) : keeps (set_sibling c).
Proof. intros f. repeat split. Qed.
Lemma keeps_set_effect_tag (t : option EffectTag) : keeps (set_effect_tag t).
Proof. intros f. repeat split. Qed.
Lemma keeps_set_hooks (h : option (list hook)) : keeps (set_hooks h).
Proof. intros f. repeat split. Qed.

(** Peels the outermost mutation off the state on the right. *)
Ltac rs_peel :=
  lazymatch goal with
  | |- render_steps ?s ?s => apply rs_refl
  | |- render_steps ?s (modify ?r (set_dom _) (emit _ (emit _ (set_next_handle _ ?x)))) =>
      apply (render_steps_trans s x);
      [|apply rs_one; eapply prim_create; eassumption]
  | |- render_steps ?s (modify ?r ?g ?x) =>
      apply (render_steps_trans s x);
      [|apply rs_one, prim_modify;
        first [apply keeps_set_child | apply keeps_set_sibling
              | apply keeps_set_effect_tag | apply keeps_set_hooks]]
  | |- render_steps ?s (snd (alloc ?f ?x)) =>
      apply (render_steps_trans s x); [|apply rs_one, prim_alloc]
  | |- render_steps ?s (set_heap (heap ?x ++ [?f]) ?x) =>
      apply (render_steps_trans s x); [|apply rs_one, (prim_alloc f x)]
  | |- render_steps ?s (set_watchers (watchers ?x ++ [true]) ?x) =>
      apply (render_steps_trans s x); [|apply rs_one, prim_watch]
  | |- render_steps ?s (set_deletions _ ?x) =>
      apply (render_steps_trans s x); [|apply rs_one, prim_attrs; reflexivity]
  | |- render_steps ?s (set_wip_fiber _ ?x) =>
      apply (render_steps_trans s x); [|apply rs_one, prim_attrs; reflexivity]
  | |- render_steps ?s (set_hook_index _ ?x) =>
      apply (render_steps_trans s x); [|apply rs_one, prim_attrs; reflexivity]
  | |- render_steps ?s (set_next_unit_of_work _ ?x) =>
      apply (render_steps_trans s x); [|apply rs_one, prim_attrs; reflexivity]
  | |- render_steps ?s (set_ticks _ ?x) =>
      apply (render_steps_trans s x); [|apply rs_one, prim_attrs; reflexivity]
  end.

Section RenderSteps.

Variable components : nat -> dict -> comp.
Variable clock : nat -> Z.

Lemma use_state_steps (initial v : value) (s s' : PyGui) :
  use_state initial s = Ok (v, s') -> render_steps s s'.
Proof.
  unfold use_state. intros H.
  inv_bind H. inv_bind H. inv_bind H. cbn -[modify] in H.
  inv_bind H. inv_bind H. injection H as _ <-.
  repeat rs_peel.
Qed.

Lemma call_component_steps (c : comp) (v : VNode dict) (s s' : PyGui) :
  call_component c s = Ok (v, s') -> render_steps s s'.
Proof.
  revert s. induction c as [v0|initial k IH]; intros s; cbn.
  - intros [= _ <-]. apply rs_refl.
  - destruct (use_state initial s) as [[x s1]| |] eqn:E; try discriminate.
    intros Hk. eapply render_steps_trans.
    + eapply use_state_steps. eassumption.
    + eapply IH. eassumption.
Qed.

Lemma reconcile_step_steps (wip index : nat) (element : option (VNode dict))
    (old_fiber prev : option nat) (s s' : PyGui) (nf no : option nat) :
  reconcile_step wip index element old_fiber prev s = Ok (nf, no, s') ->
  render_steps s s'.
Proof.
  unfold reconcile_step. intros H.
  inv_bind H. inv_bind H.
  destruct element as [e|], a as [[o f]|], a0;
    cbn -[modify] in H; inv_bind H; injection H as _ _ <-;
    (destruct (index =? 0)%nat;
     [injection E1 as <-
     |first [inv_bind E1; injection E1 as <- | injection E1 as <-]]);
    repeat rs_peel.
Qed.

Lemma reconcile_loop_steps (fuel wip : nat) (elements : list (VNode dict))
    (index : nat) (old_fiber prev : option nat) (s s' : PyGui) :
  reconcile_loop fuel wip elements index old_fiber prev s = Ok s' ->
  render_steps s s'.
Proof.
  revert index old_fiber prev s.
  induction fuel as [|fuel IH]; intros index old_fiber prev s H;
    cbn [reconcile_loop] in H;
    destruct ((index <? List.length elements)%nat
              || bool_decide (is_Some old_fiber));
    try discriminate H; try (injection H as <-; apply rs_refl).
  destruct (reconcile_step wip index (elements !! index) old_fiber prev s)
    as [[[nf no] s1]| |] eqn:E; try discriminate H.
  eapply render_steps_trans.
  - eapply reconcile_step_steps. eassumption.
  - eapply IH. eassumption.
Qed.

Lemma reconcile_children_steps (fuel wip : nat)
    (elements : list (VNode dict)) (s s' : PyGui) :
  reconcile_children fuel wip elements s = Ok s' -> render_steps s s'.
Proof.
  unfold reconcile_children. intros H. inv_bind H. inv_bind H.
  eapply reconcile_loop_steps. eassumption.
Qed.

Lemma update_function_component_steps (fuel fiber : nat) (s s' : PyGui) :
  update_function_component components fuel fiber s = Ok s' ->
  render_steps s s'.
Proof.
  unfold update_function_component. intros H.
  inv_bind H. inv_bind H. inv_bind H. destruct a1 as [child s4].
  eapply render_steps_trans; [|eapply reconcile_children_steps; eassumption].
  eapply render_steps_trans; [|eapply call_component_steps; eassumption].
  repeat rs_peel.
Qed.

Lemma update_host_component_steps (fuel fiber : nat) (s s' : PyGui) :
  update_host_component fuel fiber s = Ok s' -> render_steps s s'.
Proof.
  unfold update_host_component. intros H.
  inv_bind H. inv_bind H. inv_bind H.
  eapply render_steps_trans; [|eapply reconcile_children_steps; eassumption].
  unfold get in E. apply or_raise_Ok in E.
  destruct (f_dom a) as [dom|] eqn:Hd.
  - injection E0 as <-. apply rs_refl.
  - inv_bind E0. destruct a2 as [dom s1]. injection E0 as <-.
    unfold create_dom in E2. inv_bind E2. injection E2 as <- <-.
    repeat rs_peel.
Qed.

Lemma perform_unit_of_work_steps (fuel fiber : nat) (s s' : PyGui)
    (next : option nat) :
  perform_unit_of_work components fuel fiber s = Ok (next, s') ->
  render_steps s s'.
Proof.
  unfold perform_unit_of_work. intros H.
  inv_bind H. inv_bind H. inv_bind H. injection H as _ <-.
  destruct (is_function_component a).
  - eapply update_function_component_steps. eassumption.
  - eapply update_host_component_steps. eassumption.
Qed.

Lemma work_loop_while_steps (fuel : nat) (deadline : Z) (should_yield : bool)
    (s s' : PyGui) :
  work_loop_while components clock fuel deadline should_yield s = Ok s' ->
  render_steps s s'.
Proof.
  revert should_yield s.
  induction fuel as [|fuel IH]; intros should_yield s H;
    cbn [work_loop_while] in H;
    destruct (next_unit_of_work s) as [unit|];
    try (injection H as <-; apply rs_refl);
    destruct should_yield;
    try (injection H as <-; apply rs_refl);
    try discriminate H.
  destruct (perform_unit_of_work components fuel unit s)
    as [[next s1]| |] eqn:E; try discriminate H.
  apply perform_unit_of_work_steps in E.
  cbn [perf_counter_ns] in H. apply IH in H.
  eapply render_steps_trans; [exact E|].
  eapply render_steps_trans; [|exact H].
  repeat rs_peel.
Qed.

End RenderSteps.

(** ** What a generation in the making does to the scene *)

Lemma fresh_op_mono (lo lo' hi hi' : nat) (o : op) :
  (lo' <= lo)%nat -> (hi <= hi')%nat ->
  fresh_op lo hi o = true -> fresh_op lo' hi' o = true.
Proof.
  intros Hlo Hhi.
  destruct o as [[|n]| | |[|n]| |[|n]|]; unfold fresh_op; try discriminate;
    rewrite !andb_true_iff, !Nat.leb_le, !Nat.ltb_lt; lia.
Qed.

Lemma fresh_calls_refl (s : PyGui) : fresh_calls s s.
Proof.
  exists []. rewrite app_nil_r. split_and!; [reflexivity|lia|constructor].
Qed.

Lemma fresh_calls_trans (s1 s2 s3 : PyGui) :
  fresh_calls s1 s2 -> fresh_calls s2 s3 -> fresh_calls s1 s3.
Proof.
  intros (o1 & H1 & L1 & F1) (o2 & H2 & L2 & F2).
  exists (o1 ++ o2). split_and!.
  - rewrite H2, H1, app_assoc. reflexivity.
  - lia.
  - apply Forall_app. split.
    + eapply Forall_impl; [exact F1|]. intros o. cbn.
      apply fresh_op_mono; lia.
    + eapply Forall_impl; [exact F2|]. intros o. cbn.
      apply fresh_op_mono; lia.
Qed.

Lemma Forall_flat_map_all {A B} (P : B -> Prop) (f : A -> list B) (l : list A) :
  (forall x, Forall P (f x)) -> Forall P (flat_map f l).
Proof.
  intros H. induction l as [|x l IH]; [constructor|].
  cbn [flat_map]. apply Forall_app. split; [apply H|exact IH].
Qed.

(** The props given to a new scene object: only properties set and
    listeners added, all on that object. *)
Lemma update_dom_new_object (n : nat) (p : dict) :
  Forall (fun o => fresh_op n (S n) o = true) (update_dom (Node n) [] p).
Proof.
  assert (Hn : (n <=? n)%nat && (n <? S n)%nat = true).
  { rewrite andb_true_iff, Nat.leb_le, Nat.ltb_lt. lia. }
  unfold update_dom. cbn [remove_old_listeners remove_old_properties flat_map app].
  apply Forall_app. split; apply Forall_flat_map_all; intros [k v].
  - destruct (negb (is_property k)); [constructor|].
    destruct (negb (is_new v [] k)); constructor; [exact Hn|constructor].
  - destruct (negb (is_event k)); [constructor|].
    match goal with |- context [if ?c then _ else _] => destruct c end;
      constructor; [exact Hn|constructor].
Qed.

Lemma prim_fresh_calls (s s' : PyGui) : prim s s' -> fresh_calls s s'.
Proof.
  assert (Hsame : forall a b, host b = host a -> next_handle b = next_handle a ->
                         fresh_calls a b).
  { intros a b Ho Hn. exists []. rewrite app_nil_r, Ho, Hn.
    split_and!; [reflexivity|lia|constructor]. }
  intros [a b Hh Hw Ho Hn|f a|r g a Hg|a|r f t a Hr Hd];
    try (apply Hsame; first [assumption|reflexivity]).
  - exists (CreateElement (Node (next_handle a)) t
            :: update_dom (Node (next_handle a)) [] (f_props f)).
    cbn. split_and!.
    + rewrite <- app_assoc. reflexivity.
    + lia.
    + constructor.
      * unfold fresh_op. rewrite andb_true_iff, Nat.leb_le, Nat.ltb_lt. lia.
      * apply update_dom_new_object.
Qed.

Lemma render_steps_fresh_calls (s s' : PyGui) :
  render_steps s s' -> fresh_calls s s'.
Proof.
  induction 1 as [|a b c Hab _ IH]; [apply fresh_calls_refl|].
  eapply fresh_calls_trans; [apply prim_fresh_calls; exact Hab|exact IH].
Qed.

(** X6: the units of work of a slice never touch a scene object that
    was there before the slice: every call they make is on an object
    they made ([create_element], then its properties and listeners),
    and none adds an object to a parent or removes one. *)
Theorem render_phase_calls_are_fresh (components : nat -> dict -> comp)
    (clock : nat -> Z) (fuel : nat) (deadline : Z) (s s' : PyGui) :
  work_loop_while components clock fuel deadline false s = Ok s' ->
  exists ops,
    host s' = host s ++ ops
    /\ (next_handle s <= next_handle s')%nat
    /\ Forall (fun o => fresh_op (next_handle s) (next_handle s') o = true) ops.
Proof.
  intros H. apply render_steps_fresh_calls.
  eapply work_loop_while_steps. exact H.
Qed.

(** ** What the engine keeps of its fibers and subscriptions *)

Lemma watchers_grow_refl (s : PyGui) : watchers_grow s s.
Proof. exists []. rewrite app_nil_r. split; [reflexivity|constructor]. Qed.

Lemma watchers_grow_trans (s1 s2 s3 : PyGui) :
  watchers_grow s1 s2 -> watchers_grow s2 s3 -> watchers_grow s1 s3.
Proof.
  intros (l1 & H1 & F1) (l2 & H2 & F2). exists (l1 ++ l2). split.
  - rewrite H2, H1, app_assoc. reflexivity.
  - apply Forall_app. split; assumption.
Qed.

Lemma watchers_grow_same (s s' : PyGui) :
  watchers s' = watchers s -> watchers_grow s s'.
Proof.
  intros H. exists []. rewrite app_nil_r. split; [exact H|constructor].
Qed.

Lemma render_steps_watchers_grow (s s' : PyGui) :
  render_steps s s' -> watchers_grow s s'.
Proof.
  induction 1 as [|a b c Hab _ IH]; [apply watchers_grow_refl|].
  eapply watchers_grow_trans; [|exact IH].
  destruct Hab as [a b Hh Hw Ho Hn|f a|r g a Hg|a|r f t a Hr Hd];
    try (apply watchers_grow_same; first [exact Hw|reflexivity]).
  exists [true]. split; [reflexivity|]. repeat constructor.
Qed.

Lemma stable_refl (s : PyGui) : stable s s.
Proof. intros r f Hr. exists f. split_and!; try reflexivity; auto. Qed.

Lemma stable_trans (s1 s2 s3 : PyGui) :
  stable s1 s2 -> stable s2 s3 -> stable s1 s3.
Proof.
  intros H12 H23 r f Hr.
  destruct (H12 r f Hr) as (f2 & Hr2 & A1 & A2 & A3 & A4 & A5 & A6).
  destruct (H23 r f2 Hr2) as (f3 & Hr3 & B1 & B2 & B3 & B4 & B5 & B6).
  exists f3. split_and!; try congruence. intros dom Hd. auto.
Qed.

Lemma stable_same_heap (s s' : PyGui) : heap s' = heap s -> stable s s'.
Proof. intros H r f Hr. rewrite H. apply stable_refl. exact Hr. Qed.

Lemma stable_alloc (f : fiber) (s : PyGui) : stable s (snd (alloc f s)).
Proof.
  intros r g Hr. exists g. split_and!; try reflexivity; auto.
  apply lookup_alloc_old. exact Hr.
Qed.

Lemma stable_app (s s' : PyGui) (l : list fiber) :
  heap s' = heap s ++ l -> stable s s'.
Proof.
  intros H r g Hr. exists g. split_and!; try reflexivity; auto.
  rewrite H. rewrite lookup_app_l; [exact Hr|].
  eapply lookup_lt_Some. exact Hr.
Qed.

Lemma prim_stable (s s' : PyGui) : prim s s' -> stable s s'.
Proof.
  intros [a b Hh Hw Ho Hn|f a|r g a Hg|a|r f t a Hr Hd].
  - apply stable_same_heap. exact Hh.
  - apply stable_alloc.
  - intros i fi Hi. destruct (decide (r = i)) as [->|Hne].
    + exists (g fi). rewrite lookup_modify_eq, Hi.
      destruct (Hg fi) as (G1 & G2 & G3 & G4 & G5 & G6).
      split_and!; try assumption; try reflexivity. intros dom Hdom. congruence.
    + exists fi. rewrite lookup_modify_ne by assumption.
      split_and!; try reflexivity; auto.
  - apply stable_same_heap. reflexivity.
  - intros i fi Hi. destruct (decide (r = i)) as [->|Hne].
    + exists (set_dom (Some (Node (next_handle a))) fi).
      rewrite lookup_modify_eq. cbn. rewrite Hi.
      split_and!; try reflexivity.
      intros dom Hdom. rewrite Hr in Hi. injection Hi as <-. congruence.
    + exists fi. rewrite lookup_modify_ne by assumption.
      split_and!; try reflexivity; auto.
Qed.

Lemma render_steps_stable (s s' : PyGui) : render_steps s s' -> stable s s'.
Proof.
  induction 1 as [|a b c Hab _ IH]; [apply stable_refl|].
  eapply stable_trans; [apply prim_stable; exact Hab|exact IH].
Qed.

Section Events.

Variable components : nat -> dict -> comp.
Variable clock : nat -> Z.

Lemma request_idle_work_same (deadline : option Z) (s : PyGui) :
  heap (request_idle_work clock deadline s) = heap s
  /\ watchers (request_idle_work clock deadline s) = watchers s.
Proof.
  unfold request_idle_work.
  destruct deadline as [d|]; [destruct (d =? 0)%Z|]; split; reflexivity.
Qed.

Lemma work_loop_finish_same (s : PyGui) :
  heap (work_loop_finish clock s) = heap s
  /\ watchers (work_loop_finish clock s) = watchers s.
Proof.
  unfold work_loop_finish. destruct (next_unit_of_work s).
  - apply request_idle_work_same.
  - destruct (render_callback s); split; reflexivity.
Qed.

Lemma handle_event_keeps (fuel : nat) (e : event) (s s' : PyGui) :
  handle_event components clock fuel e s = Ok s' ->
  stable s s' /\ watchers_grow s s'.
Proof.
  destruct e as [element container callback| |]; cbn [handle_event]; intros H.
  - injection H as <-. unfold render. cbn -[request_idle_work].
    match goal with
    | |- context [request_idle_work clock None ?x] =>
        destruct (request_idle_work_same None x) as [Hh Hw]
    end.
    split.
    + eapply stable_app. rewrite Hh. reflexivity.
    + apply watchers_grow_same. rewrite Hw. reflexivity.
  - destruct (qt_timer s) as [[deadline [|]]|];
      try (injection H as <-; split;
           [apply stable_refl|apply watchers_grow_refl]).
    unfold work_loop in H. inv_bind H. inv_bind H. injection H as <-.
    apply work_loop_while_steps in E.
    destruct (work_loop_finish_same a0) as [Hh Hw].
    assert (Hc : heap a0 = heap a /\ watchers a0 = watchers a).
    { unfold work_loop_commit in E0.
      destruct (bool_decide (next_unit_of_work a = None)
                && bool_decide (is_Some (wip_root a))).
      - apply commit_root_inv in E0. destruct E0 as (s2 & [ops ->] & ->).
        split; reflexivity.
      - injection E0 as <-. split; reflexivity. }
    destruct Hc as [Hch Hcw]. split.
    + eapply stable_trans; [apply render_steps_stable in E; exact E|].
      apply stable_same_heap. rewrite Hh, Hch. reflexivity.
    + eapply watchers_grow_trans;
        [apply render_steps_watchers_grow in E; exact E|].
      apply watchers_grow_same. rewrite Hw, Hcw. reflexivity.
  - unfold state_updated in H. inv_bind H. inv_bind H.
    cbn -[request_idle_work] in H. injection H as <-.
    match goal with
    | |- context [request_idle_work clock None ?x] =>
        destruct (request_idle_work_same None x) as [Hh Hw]
    end.
    split.
    + eapply stable_app. rewrite Hh. reflexivity.
    + apply watchers_grow_same. rewrite Hw. reflexivity.
Qed.

(** X7: the engine never cancels a subscription: whatever renders,
    slices and watcher callbacks follow each other, the subscriptions
    handed out so far are all still there and live, with new live ones
    after them. *)
Theorem run_never_cancels_watchers (fuel : nat) (events : list event)
    (s s' : PyGui) :
  Forall (fun b => b = true) (watchers s) ->
  run components clock fuel events s = Ok s' ->
  (exists l, watchers s' = watchers s ++ l)
  /\ Forall (fun b => b = true) (watchers s').
Proof.
  intros Hlive Hrun.
  assert (Hg : watchers_grow s s').
  { revert s Hlive Hrun. induction events as [|e events IH]; intros s Hlive Hrun;
      cbn [run] in Hrun.
    - injection Hrun as <-. apply watchers_grow_refl.
    - inv_bind Hrun. apply handle_event_keeps in E. destruct E as [_ Hg].
      eapply watchers_grow_trans; [exact Hg|]. apply IH; [|exact Hrun].
      destruct Hg as (l & -> & Hl). apply Forall_app. split; assumption. }
  destruct Hg as (l & Hl & Hf). split; [eauto|].
  rewrite Hl. apply Forall_app. split; assumption.
Qed.

(** X8: fibers are never dropped nor re-made: whatever events follow
    each other, a fiber of the arena is still there afterwards with the
    type, props, children, parent and alternate it had, and with the
    scene object it had if it had one. *)
Theorem run_keeps_fibers (fuel : nat) (events : list event) (s s' : PyGui)
    (r : nat) (f : fiber) :
  run components clock fuel events s = Ok s' ->
  heap s !! r = Some f ->
  exists f',
    heap s' !! r = Some f'
    /\ f_type f' = f_type f /\ f_props f' = f_props f
    /\ f_children f' = f_children f /\ f_parent f' = f_parent f
    /\ f_alternate f' = f_alternate f
    /\ (forall dom, f_dom f = Some dom -> f_dom f' = Some dom).
Proof.
  intros Hrun.
  assert (Hs : stable s s').
  { revert s Hrun. induction events as [|e events IH]; intros s Hrun;
      cbn [run] in Hrun.
    - injection Hrun as <-. apply stable_refl.
    - inv_bind Hrun. apply handle_event_keeps in E. destruct E as [Hs _].
      eapply stable_trans; [exact Hs|]. apply IH. exact Hrun. }
  apply Hs.
Qed.

End Events.

(** ** Hooks *)











(** ** The reconciler on a first render and on an emptied list *)

Lemma reconcile_step_new_first (wip : nat) (e : VNode dict) (prev : option nat)
    (s : PyGui) :
  reconcile_step wip 0 (Some e) None prev s
  = Ok (Some (List.length (heap s)), None,
        modify wip (set_child (Some (List.length (heap s))))
          (snd (alloc (placement wip e None) s))).
Proof. reflexivity. Qed.

Lemma reconcile_step_new_next (wip i p : nat) (e : VNode dict) (s : PyGui) :
  reconcile_step wip (S i) (Some e) None (Some p) s
  = Ok (Some (List.length (heap s)), None,
        modify p (set_sibling (Some (List.length (heap s))))
          (snd (alloc (placement wip e None) s))).
Proof. reflexivity. Qed.

Lemma reconcile_loop_mount (wip : nat) (es : list (VNode dict)) (s : PyGui)
    (w : fiber) :
  heap s !! wip = Some w ->
  forall k i fuel si,
    (i + k = List.length es)%nat -> (k <= fuel)%nat ->
    mounted s wip es i si ->
    exists s',
      reconcile_loop fuel wip es i None
        (match i with O => None | S i' => Some (List.length (heap s) + i')%nat end)
        si = Ok s'
      /\ mounted s wip es (List.length es) s'.
Proof.
  intros Hwip.
  pose proof (lookup_lt_Some _ _ _ Hwip) as Hlt.
  induction k as [|k IH]; intros i fuel si Hik Hfuel Hm.
  - assert (i = List.length es) as -> by lia.
    exists si. split; [|exact Hm].
    destruct fuel; cbn [reconcile_loop];
      rewrite (proj2 (Nat.ltb_ge _ _)) by lia; reflexivity.
  - destruct fuel as [|fuel]; [lia|].
    cbn [reconcile_loop].
    rewrite (proj2 (Nat.ltb_lt i (List.length es))) by lia. cbn [orb].
    destruct (es !! i) as [e|] eqn:He;
      [|apply lookup_ge_None in He; lia].
    destruct Hm as (Hlen & Hdel & Hnew & Hold).
    set (n0 := List.length (heap s)) in *.
    assert (Hstep : exists s1,
      reconcile_step wip i (Some e) None
        (match i with O => None | S i' => Some (n0 + i')%nat end) si
      = Ok (Some (n0 + i)%nat, None, s1)
      /\ mounted s wip es (S i) s1).
    { destruct i as [|i'].
      - rewrite Nat.add_0_r in *.
        rewrite reconcile_step_new_first, Hlen. fold n0.
        eexists. split; [reflexivity|].
        unfold mounted. fold n0. split_and!.
        + unfold modify, alloc. cbn. rewrite length_alter, length_app.
          cbn. lia.
        + cbn. exact Hdel.
        + intros j e' Hj He'. assert (j = 0)%nat as -> by lia.
          rewrite He in He'. injection He' as <-. rewrite Nat.add_0_r.
          rewrite lookup_modify_ne by lia.
          pose proof (lookup_alloc_new (placement wip e None) si) as Hn.
          rewrite Hlen in Hn. fold n0 in Hn. rewrite Hn. reflexivity.
        + intros r f Hr. cbn [Nat.ltb Nat.leb andb].
          pose proof (Hold r f Hr) as Hr'. cbn [Nat.ltb Nat.leb andb] in Hr'.
          destruct (r =? wip)%nat eqn:Erw.
          * apply Nat.eqb_eq in Erw. subst r.
            rewrite lookup_modify_eq.
            rewrite (lookup_alloc_old _ _ _ _ Hr'). reflexivity.
          * apply Nat.eqb_neq in Erw.
            rewrite lookup_modify_ne by congruence.
            apply lookup_alloc_old. exact Hr'.
      - rewrite reconcile_step_new_next, Hlen. fold n0.
        eexists. split; [reflexivity|].
        unfold mounted. fold n0. split_and!.
        + unfold modify, alloc. cbn. rewrite length_alter, length_app.
          cbn. lia.
        + cbn. exact Hdel.
        + intros j e' Hj He'.
          destruct (decide (j = S i')) as [->|Hne1].
          * rewrite He in He'. injection He' as <-.
            rewrite lookup_modify_ne by lia.
            pose proof (lookup_alloc_new (placement wip e None) si) as Hn.
            rewrite Hlen in Hn. fold n0 in Hn. rewrite Hn.
            rewrite (proj2 (Nat.ltb_ge _ _)) by lia. reflexivity.
          * assert (Hj' : (j < S i')%nat) by lia.
            pose proof (Hnew j e' Hj' He') as Hjl.
            rewrite (proj2 (Nat.ltb_lt (S j) (S (S i')))) by lia.
            destruct (decide (j = i')) as [->|Hne2].
            -- rewrite lookup_modify_eq.
               rewrite (lookup_alloc_old _ _ _ _ Hjl). reflexivity.
            -- rewrite lookup_modify_ne by lia.
               rewrite (lookup_alloc_old _ _ _ _ Hjl).
               rewrite (proj2 (Nat.ltb_lt (S j) (S i'))) by lia. reflexivity.
        + intros r f Hr.
          pose proof (Hold r f Hr) as Hr'.
          pose proof (lookup_lt_Some _ _ _ Hr) as Hrl. fold n0 in Hrl.
          rewrite lookup_modify_ne by lia.
          rewrite (lookup_alloc_old _ _ _ _ Hr'). reflexivity. }
    destruct Hstep as (s1 & -> & Hm1).
    apply (IH (S i) fuel s1); [lia|lia|exact Hm1].
Qed.

(** X10: the children of a fiber that has no alternate (a first
    render).  With enough turns for the loop, [reconcile_children]
    returns; it makes one fiber for each element, in the order of the
    elements, each tagged [PLACEMENT] with no scene object, no alternate
    and no hooks, each pointing at the next as its sibling and the last
    at none; the parent points at the first as its child (and keeps its
    child when there is no element); no other fiber changes and nothing
    is marked for deletion. *)
Theorem reconcile_children_first_render (fuel wip : nat)
    (es : list (VNode dict)) (s : PyGui) (w : fiber) :
  heap s !! wip = Some w ->
  f_alternate w = None ->
  (List.length es <= fuel)%nat ->
  exists s',
    reconcile_children fuel wip es s = Ok s'
    /\ List.length (heap s') = (List.length (heap s) + List.length es)%nat
    /\ deletions s' = deletions s
    /\ (forall j e, es !! j = Some e ->
          heap s' !! (List.length (heap s) + j)%nat
          = Some (placement wip e
                    (if (S j <? List.length es)%nat
                     then Some (List.length (heap s) + S j)%nat else None)))
    /\ heap s' !! wip
       = Some (match es with
               | [] => w
               | _ :: _ => set_child (Some (List.length (heap s))) w
               end)
    /\ (forall r f, r <> wip -> heap s !! r = Some f -> heap s' !! r = Some f).
Proof.
  intros Hwip Halt Hfuel.
  assert (Hm0 : mounted s wip es 0 s).
  { unfold mounted. split_and!; [lia|reflexivity| |].
    - intros j e Hj. lia.
    - intros r f Hr. cbn. exact Hr. }
  destruct (reconcile_loop_mount wip es s w Hwip (List.length es) 0 fuel s
              eq_refl Hfuel Hm0) as (s' & Hloop & Hlen & Hdel & Hnew & Hold).
  exists s'. split.
  - unfold reconcile_children, get. rewrite Hwip. cbn. rewrite Halt. cbn.
    exact Hloop.
  - split_and!; try assumption.
    + intros j e He. apply Hnew; [|exact He].
      eapply lookup_lt_Some. exact He.
    + rewrite (Hold wip w Hwip). rewrite Nat.eqb_refl.
      destruct es; reflexivity.
    + intros r f Hne Hr. rewrite (Hold r f Hr).
      rewrite (proj2 (Nat.eqb_neq r wip) Hne), andb_false_r. reflexivity.
Qed.

Lemma sibling_chain_preserved (s s' : PyGui) (o : option nat) (l : list nat) :
  (forall r f, heap s !! r = Some f ->
     exists f', heap s' !! r = Some f'
                /\ f_type f' = f_type f /\ f_sibling f' = f_sibling f) ->
  sibling_chain s o l -> sibling_chain s' o l.
Proof.
  intros Hp. revert o. induction l as [|r l IH]; intros o; cbn; [tauto|].
  intros (-> & f & Hr & Ht & Hc). split; [reflexivity|].
  destruct (Hp r f Hr) as (f' & Hr' & Ht' & Hs').
  exists f'. split_and!; [exact Hr'|congruence|].
  rewrite Hs'. apply IH. exact Hc.
Qed.

Lemma reconcile_step_old_only (wip i o : nat) (prev : option nat) (s : PyGui)
    (f : fiber) :
  heap s !! o = Some f ->
  reconcile_step wip i None (Some o) prev s
  = Ok (None, f_sibling f,
        let s2 := set_deletions (deletions s ++ [o])
                    (modify o (set_effect_tag (Some DELETION)) s) in
        if (i =? 0)%nat then modify wip (set_child None) s2 else s2).
Proof.
  intros Ho. unfold reconcile_step, get. rewrite Ho. cbn -[modify].
  destruct (i =? 0)%nat; reflexivity.
Qed.

Lemma reconcile_loop_empty (wip : nat) (l : list nat) :
  forall i fuel prev si o,
    sibling_chain si o l -> (List.length l <= fuel)%nat ->
    exists s',
      reconcile_loop fuel wip [] i o prev si = Ok s'
      /\ deletions s' = deletions si ++ l
      /\ List.length (heap s') = List.length (heap si)
      /\ forall r f, heap si !! r = Some f ->
           heap s' !! r = Some (emptied (i =? 0)%nat wip l r f).
Proof.
  induction l as [|r0 l IH]; intros i fuel prev si o Hc Hfuel.
  - cbn in Hc. subst o. exists si. split_and!.
    + destruct fuel; reflexivity.
    + rewrite app_nil_r. reflexivity.
    + reflexivity.
    + intros r f Hr. unfold emptied. cbn. rewrite andb_false_r. cbn.
      rewrite bool_decide_eq_false_2 by (apply not_elem_of_nil). exact Hr.
  - cbn in Hc. destruct Hc as (-> & f0 & Hr0 & Ht0 & Hc).
    destruct fuel as [|fuel]; [cbn in Hfuel; lia|].
    cbn [reconcile_loop]. cbn [List.length Nat.ltb Nat.leb orb].
    rewrite bool_decide_eq_true_2 by (eexists; reflexivity).
    cbn [lookup list_lookup].
    change (([] : list (VNode dict)) !! i) with (@None (VNode dict)).
    rewrite (reconcile_step_old_only wip i r0 prev si f0 Hr0). cbv zeta.
    set (s2 := set_deletions (deletions si ++ [r0])
                 (modify r0 (set_effect_tag (Some DELETION)) si)).
    set (s3 := if (i =? 0)%nat then modify wip (set_child None) s2 else s2).
    assert (Hlook : forall r f, heap si !! r = Some f ->
              heap s3 !! r
              = Some (emptied (i =? 0)%nat wip [r0] r f)).
    { intros r f Hr. unfold emptied, s3, s2.
      rewrite (bool_decide_eq_false_2 ([r0] = [])) by discriminate.
      cbn [negb andb].
      rewrite andb_true_r.
      assert (Htag : forall x : PyGui,
                x = set_deletions (deletions si ++ [r0])
                      (modify r0 (set_effect_tag (Some DELETION)) si) ->
                heap x !! r
                = Some (if bool_decide (r ∈ [r0])
                        then set_effect_tag (Some DELETION) f else f)).
      { intros x ->. change (heap (set_deletions ?d ?y)) with (heap y).
        destruct (decide (r0 = r)) as [->|Hne].
        - rewrite lookup_modify_eq, Hr.
          rewrite bool_decide_eq_true_2 by (apply list_elem_of_here).
          reflexivity.
        - rewrite lookup_modify_ne by assumption.
          rewrite bool_decide_eq_false_2; [exact Hr|].
          intros Hin. apply list_elem_of_singleton in Hin. congruence. }
      specialize (Htag _ eq_refl).
      destruct (i =? 0)%nat; cbn [andb].
      - destruct (r =? wip)%nat eqn:Erw.
        + apply Nat.eqb_eq in Erw. subst r.
          rewrite lookup_modify_eq, Htag.
          destruct (bool_decide (wip ∈ [r0])); reflexivity.
        + apply Nat.eqb_neq in Erw.
          rewrite lookup_modify_ne by congruence. exact Htag.
      - exact Htag. }
    assert (Hc3 : sibling_chain s3 (f_sibling f0) l).
    { eapply sibling_chain_preserved; [|exact Hc].
      intros r f Hr. rewrite (Hlook r f Hr). eexists. split; [reflexivity|].
      unfold emptied.
      destruct (_ && _ && _), (bool_decide _); split; reflexivity. }
    destruct (IH (S i) fuel None s3 (f_sibling f0) Hc3) as (s' & Hl & Hd & Hn & Hh).
    { cbn in Hfuel. lia. }
    assert (Hloop : forall p,
              reconcile_loop fuel wip [] (S i) (f_sibling f0) p s3 = Ok s').
    { intros p. rewrite <- Hl. clear.
      destruct fuel; cbn [reconcile_loop]; [reflexivity|].
      destruct (_ || _); [|reflexivity].
      change (([] : list (VNode dict)) !! S i) with (@None (VNode dict)).
      unfold reconcile_step. destruct (f_sibling f0) as [o|]; cbn -[modify].
      - destruct (get o s3); reflexivity.
      - reflexivity. }
    exists s'. split_and!.
    + apply Hloop.
    + rewrite Hd. unfold s3, s2.
      destruct (i =? 0)%nat; cbn; rewrite <- app_assoc; reflexivity.
    + rewrite Hn. unfold s3, s2.
      destruct (i =? 0)%nat; cbn; rewrite ?length_alter; reflexivity.
    + intros r f Hr. rewrite (Hh r _ (Hlook r f Hr)).
      f_equal. unfold emptied. cbn [Nat.eqb andb].
      rewrite (bool_decide_eq_false_2 (r0 :: l = [])) by discriminate.
      rewrite (bool_decide_eq_false_2 ([r0] = [])) by discriminate.
      cbn [negb]. rewrite !andb_true_r.
      destruct (decide (r = r0)) as [->|Hne].
      * rewrite (bool_decide_eq_true_2 (r0 ∈ [r0])) by (apply list_elem_of_here).
        rewrite (bool_decide_eq_true_2 (r0 ∈ r0 :: l)) by (apply list_elem_of_here).
        destruct (bool_decide (r0 ∈ l)), ((i =? 0)%nat && (r0 =? wip)%nat);
          reflexivity.
      * rewrite (bool_decide_eq_false_2 (r ∈ [r0]))
          by (intros Hin; apply list_elem_of_singleton in Hin; congruence).
        destruct (decide (r ∈ l)) as [Hin|Hnin].
        -- rewrite (bool_decide_eq_true_2 (r ∈ l)) by assumption.
           rewrite (bool_decide_eq_true_2 (r ∈ r0 :: l))
             by (apply list_elem_of_further; assumption).
           reflexivity.
        -- rewrite (bool_decide_eq_false_2 (r ∈ l)) by assumption.
           rewrite (bool_decide_eq_false_2 (r ∈ r0 :: l)); [reflexivity|].
           intros Hin. apply elem_of_cons in Hin. tauto.
Qed.

(** X11: the children of a fiber reconciled with no element at all.
    With enough turns for the loop, [reconcile_children] returns; every
    old child (the children of the alternate, along their sibling
    links) is tagged [DELETION] and put on the deletions in that order;
    the fiber gets [None] as its child if there was an old child; no
    new fiber is made and nothing else changes. *)
Theorem reconcile_children_emptied (fuel wip a : nat) (s : PyGui)
    (w alternate : fiber) (l : list nat) :
  heap s !! wip = Some w ->
  f_alternate w = Some a ->
  heap s !! a = Some alternate ->
  sibling_chain s (f_child alternate) l ->
  (List.length l <= fuel)%nat ->
  exists s',
    reconcile_children fuel wip [] s = Ok s'
    /\ deletions s' = deletions s ++ l
    /\ List.length (heap s') = List.length (heap s)
    /\ forall r f, heap s !! r = Some f ->
         heap s' !! r = Some (emptied true wip l r f).
Proof.
  intros Hwip Halt Ha Hc Hfuel.
  destruct (reconcile_loop_empty wip l 0 fuel None s _ Hc Hfuel)
    as (s' & Hl & Hd & Hn & Hh).
  exists s'. split; [|split_and!; assumption].
  unfold reconcile_children, get. rewrite Hwip. cbn. rewrite Halt. cbn.
  rewrite Ha. cbn. exact Hl.
Qed.

(** * More on the commit phase *)

(** X12: a commit as a whole.  The calls of the deletions come first,
    then those of the new generation; the work-in-progress root becomes
    the current root and is forgotten as work in progress; and nothing
    else changes: no fiber, no hook, no subscription, and the list of
    deletions is left as it is. *)
Theorem commit_root_effect (fuel : nat) (s s' : PyGui) :
  commit_root fuel s = Ok s' ->
  exists w root ops1 ops2,
    wip_root s = Some w
    /\ heap s !! w = Some root
    /\ commit_deletions fuel (deletions s) s = Ok (emit ops1 s)
    /\ commit_work fuel (f_child root) (emit ops1 s)
       = Ok (emit ops2 (emit ops1 s))
    /\ s' = set_wip_root None
              (set_current_root (Some w) (emit (ops1 ++ ops2) s)).
Proof.
  unfold commit_root. intros H. inv_bind H. inv_bind H. inv_bind H. inv_bind H.
  injection H as <-.
  destruct (commit_deletions_only_host _ _ _ _ E) as [ops1 ->].
  destruct (commit_work_only_host _ _ _ _ E2) as [ops2 ->].
  apply or_raise_Ok in E0. unfold get in E1. apply or_raise_Ok in E1.
  exists a0, a1, ops1, ops2. cbn in E0, E1.
  split_and!; try assumption.
  cbn. rewrite E0. unfold emit. cbn. rewrite app_assoc. reflexivity.
Qed.

Lemma first_host_commit_deletion (s : PyGui) (r : nat) (dom : handle)
    (dom_parent : handle) :
  first_host s r dom ->
  exists n, forall fuel, (n <= fuel)%nat ->
    commit_deletion fuel r dom_parent s = Ok (emit [Remove dom_parent dom] s).
Proof.
  induction 1 as [r f dom Hr Hd|r f child dom Hr Hd Hc _ [n IH]].
  - exists 1%nat. intros [|fuel] Hle; [lia|].
    cbn [commit_deletion]. unfold get. rewrite Hr. cbn. rewrite Hd. reflexivity.
  - exists (S n). intros [|fuel] Hle; [lia|].
    cbn [commit_deletion]. unfold get. rewrite Hr. cbn. rewrite Hd, Hc. cbn.
    apply IH. lia.
Qed.

(** X13: what the commit of a deletion removes.  When [commit_deletion]
    returns it has made exactly one call: the removal, from the given
    parent, of the scene object of the fiber or, if it has none, of the
    first fiber down its first-child links that has one; and it does
    return, with that call, whenever there is such a fiber and the
    bound on nested calls is large enough. *)
Theorem commit_deletion_removes_first_host (fuel r : nat) (dom_parent : handle)
    (s s' : PyGui) :
  commit_deletion fuel r dom_parent s = Ok s' ->
  exists dom,
    first_host s r dom
    /\ s' = emit [Remove dom_parent dom] s
    /\ exists n, forall fuel', (n <= fuel')%nat ->
         commit_deletion fuel' r dom_parent s = Ok s'.
Proof.
  intros H.
  assert (Hf : exists dom, first_host s r dom
                           /\ s' = emit [Remove dom_parent dom] s).
  { revert r H. induction fuel as [|fuel IH]; intros r H;
      cbn [commit_deletion] in H; [discriminate H|].
    inv_bind H. unfold get in E. apply or_raise_Ok in E.
    destruct (f_dom a) as [dom|] eqn:Hd.
    - injection H as <-. exists dom. split; [|reflexivity].
      eapply first_host_here; eassumption.
    - inv_bind H. apply or_raise_Ok in E0.
      destruct (IH _ H) as (dom & Hfh & ->).
      exists dom. split; [|reflexivity].
      eapply first_host_down; eassumption. }
  destruct Hf as (dom & Hfh & ->). exists dom. split_and!; try assumption.
  - reflexivity.
  - apply first_host_commit_deletion. exact Hfh.
Qed.

(** ** The calls of a commit on a tree of fibers *)

Lemma emit_nil (s : PyGui) : emit [] s = s.
Proof. unfold emit. rewrite app_nil_r. destruct s. reflexivity. Qed.

Lemma emit_emit (a b : list op) (s : PyGui) :
  emit b (emit a s) = emit (a ++ b) s.
Proof. unfold emit. cbn. rewrite app_assoc. reflexivity. Qed.

Lemma host_above_dom_parent_of (s : PyGui) (o : option nat) (dom : handle) :
  host_above s o dom ->
  exists n, forall fuel s0, (n <= fuel)%nat -> heap s0 = heap s ->
    dom_parent_of fuel o s0 = Ok dom.
Proof.
  induction 1 as [p f dom Hp Hd|p f dom Hp Hd _ [n IH]].
  - exists 1%nat. intros [|fuel] s0 Hle Hh; [lia|].
    cbn [dom_parent_of]. cbn. unfold get. rewrite Hh, Hp. cbn.
    rewrite Hd. reflexivity.
  - exists (S n). intros [|fuel] s0 Hle Hh; [lia|].
    cbn [dom_parent_of]. cbn. unfold get. rewrite Hh, Hp. cbn.
    rewrite Hd. apply IH; [lia|exact Hh].
Qed.

Lemma commits_none (s : PyGui) : commits s None [].
Proof.
  exists 0%nat. intros fuel s0 _ _. rewrite emit_nil.
  destruct fuel; reflexivity.
Qed.

Lemma committable_unfold (s : PyGui) (r : nat) (kids : list fiber_tree)
    (f : fiber) :
  heap s !! r = Some f ->
  committable s (FT r kids) = true ->
  f_effect_tag f <> Some DELETION
  /\ (forall dom, f_effect_tag f = Some UPDATE -> f_dom f = Some dom ->
        is_Some (f_alternate f ≫= (fun a => heap s !! a)))
  /\ Forall (fun k => committable s k = true) kids.
Proof.
  intros Hr H. cbn [committable] in H. rewrite Hr in H.
  apply andb_true_iff in H. destruct H as [Ht Hk]. split_and!.
  - intros Hc. rewrite Hc in Ht. discriminate.
  - intros dom Hu Hd. rewrite Hu, Hd in Ht.
    apply bool_decide_eq_true in Ht. exact Ht.
  - apply List.Forall_forall. intros k Hin.
    rewrite forallb_forall in Hk. apply Hk. exact Hin.
Qed.

Lemma commits_subtree (s : PyGui) (t : fiber_tree) :
  forall p dom_parent sibling rest,
    shaped s (Some p) t sibling = true ->
    host_above s (Some p) dom_parent ->
    committable s t = true ->
    commits s sibling rest ->
    commits s (Some (root_of t)) (commit_ops s dom_parent t ++ rest).
Proof.
  induction t as [r kids IHkids] using fiber_tree_ind_forall.
  intros p dom_parent sibling rest Hsh Hup Hcm Hrest.
  apply shaped_unfold in Hsh.
  destruct Hsh as (f & Hr & Hp & Hs & Hc & Hch).
  destruct (committable_unfold s r kids f Hr Hcm) as (Hnd & Halt & Hck).
  cbn [root_of commit_ops]. rewrite Hr.
  set (below := default dom_parent (f_dom f)).
  set (own := match f_effect_tag f, f_dom f with
              | Some PLACEMENT, Some dom => [Add dom_parent dom]
              | Some UPDATE, Some dom =>
                  match f_alternate f ≫= (fun a => heap s !! a) with
                  | Some alternate =>
                      update_dom dom (f_props alternate) (f_props f)
                  | None => []
                  end
              | _, _ => []
              end).
  assert (Hbelow : host_above s (Some r) below).
  { unfold below. destruct (f_dom f) as [dom|] eqn:Hd; cbn.
    - eapply host_above_here; eassumption.
    - eapply host_above_up; [exact Hr|exact Hd|]. rewrite Hp. exact Hup. }
  assert (Hkids : forall ks,
            Forall (fun t => forall p dom_parent sibling rest,
                      shaped s (Some p) t sibling = true ->
                      host_above s (Some p) dom_parent ->
                      committable s t = true ->
                      commits s sibling rest ->
                      commits s (Some (root_of t))
                        (commit_ops s dom_parent t ++ rest)) ks ->
            chained s r ks = true ->
            Forall (fun k => committable s k = true) ks ->
            commits s (head (map root_of ks)) (flat_map (commit_ops s below) ks)).
  { induction ks as [|c cs IHcs]; intros Hall Hchain Hcms.
    - apply commits_none.
    - apply Forall_cons in Hall. destruct Hall as [Pc Pcs].
      apply Forall_cons in Hcms. destruct Hcms as [Hcc Hccs].
      cbn [chained] in Hchain. apply andb_true_iff in Hchain.
      destruct Hchain as [Hshc Hchcs].
      cbn [map head flat_map].
      eapply Pc; [exact Hshc|exact Hbelow|exact Hcc|].
      apply IHcs; assumption. }
  specialize (Hkids kids IHkids Hch Hck).
  rewrite <- Hc in Hkids.
  destruct (host_above_dom_parent_of _ _ _ Hup) as [n1 Hn1].
  destruct Hkids as [n2 Hn2]. destruct Hrest as [n3 Hn3].
  exists (S (n1 + n2 + n3)). intros [|fuel] s0 Hle Hh; [lia|].
  cbn [commit_work]. unfold get. rewrite Hh, Hr. cbn [or_raise mbind res_bind].
  rewrite Hp, (Hn1 fuel s0) by (lia || assumption).
  cbn [mbind res_bind].
  assert (Hfin : forall own',
            commit_work fuel (f_child f) (emit own' s0)
              ≫= (fun s2 => commit_work fuel (f_sibling f) s2)
            = Ok (emit (own' ++ flat_map (commit_ops s below) kids ++ rest) s0)).
  { intros own'. rewrite (Hn2 fuel (emit own' s0)) by (lia || exact Hh).
    cbn [mbind res_bind]. rewrite Hs.
    rewrite (Hn3 fuel) by (lia || exact Hh).
    rewrite !emit_emit, <- ?app_assoc. reflexivity. }
  assert (Hfin0 :
            commit_work fuel (f_child f) s0
              ≫= (fun s2 => commit_work fuel (f_sibling f) s2)
            = Ok (emit (flat_map (commit_ops s below) kids ++ rest) s0)).
  { pose proof (Hfin []) as H0. rewrite emit_nil in H0. exact H0. }
  rewrite <- app_assoc. unfold own.
  destruct (f_effect_tag f) as [[| |]|] eqn:Et;
    destruct (f_dom f) as [dom|] eqn:Hd;
    cbn [mbind res_bind app];
    try exact Hfin0;
    try (exfalso; apply Hnd; reflexivity).
  - destruct (Halt dom eq_refl eq_refl) as [alternate Ha].
    rewrite Ha. destruct (f_alternate f) as [a|]; [|discriminate Ha].
    cbn in Ha. cbn [or_raise mbind res_bind]. rewrite Ha.
    cbn [or_raise mbind res_bind]. apply Hfin.
  - apply (Hfin [Add dom_parent dom]).
Qed.

(** X14: the commit of a generation that is shaped as a tree and holds
    no deleted fiber.  With a large enough bound on nested calls,
    [commit_work] on the first child of the root returns, whatever
    calls were made before, and its calls are those of the fibers in
    pre-order: a placed fiber that has a scene object is added under
    the scene object of its nearest ancestor that has one, an updated
    one is given the changes of its props against those of its
    alternate, and a fiber without scene object makes no call. *)
Theorem commit_work_preorder (s : PyGui) (w : nat) (kids : list fiber_tree)
    (root : fiber) (container : handle) :
  shaped s None (FT w kids) None = true ->
  heap s !! w = Some root ->
  f_dom root = Some container ->
  forallb (committable s) kids = true ->
  exists n, forall fuel s0, (n <= fuel)%nat -> heap s0 = heap s ->
    commit_work fuel (f_child root) s0
    = Ok (emit (flat_map (commit_ops s container) kids) s0).
Proof.
  intros Hsh Hw Hd Hcm.
  apply shaped_unfold in Hsh.
  destruct Hsh as (f & Hr & _ & _ & Hc & Hch).
  rewrite Hw in Hr. injection Hr as <-.
  assert (Hbelow : host_above s (Some w) container)
    by (eapply host_above_here; eassumption).
  assert (Hcms : Forall (fun k => committable s k = true) kids).
  { apply List.Forall_forall. intros k Hin.
    rewrite forallb_forall in Hcm. apply Hcm. exact Hin. }
  rewrite Hc. clear Hc Hw Hd Hcm.
  induction kids as [|c cs IH].
  - apply commits_none.
  - apply Forall_cons in Hcms. destruct Hcms as [Hcc Hccs].
    cbn [chained] in Hch. apply andb_true_iff in Hch.
    destruct Hch as [Hshc Hchcs].
    cbn [map head flat_map].
    eapply commits_subtree; [exact Hshc|exact Hbelow|exact Hcc|].
    apply IH; assumption.
Qed.

(** * The renderer of the reconciliation test *)

Lemma index_split (x : nat) (children : list nat) (i : nat) :
  CustomElementRenderer.index x children = Some i ->
  exists l1 l2, children = l1 ++ x :: l2 /\ ~ In x l1 /\ List.length l1 = i.
Proof.
  revert i. induction children as [|y cs IH]; intros i H; [discriminate H|].
  cbn [CustomElementRenderer.index] in H.
  destruct (y =? x)%nat eqn:E.
  - apply Nat.eqb_eq in E. subst y. injection H as <-.
    exists [], cs. split_and!; [reflexivity|intros []|reflexivity].
  - apply Nat.eqb_neq in E.
    destruct (CustomElementRenderer.index x cs) as [j|] eqn:Ej;
      [|discriminate H].
    cbn in H. injection H as <-.
    destruct (IH j eq_refl) as (l1 & l2 & -> & Hn & Hl).
    exists (y :: l1), l2. split_and!; [reflexivity| |cbn; lia].
    intros [Hy|Hin]; [congruence|contradiction].
Qed.

Lemma index_absent (x : nat) (children : list nat) :
  CustomElementRenderer.index x children = None <-> ~ In x children.
Proof.
  induction children as [|y cs IH]; cbn [CustomElementRenderer.index].
  - split; [intros _ []|reflexivity].
  - destruct (y =? x)%nat eqn:E.
    + apply Nat.eqb_eq in E. subst y. split; [discriminate|].
      intros Hn. exfalso. apply Hn. left. reflexivity.
    + apply Nat.eqb_neq in E.
      destruct (CustomElementRenderer.index x cs) as [j|].
      * split; [discriminate|]. intros Hn. exfalso.
        assert (Hx : ~ In x cs) by (intros Hin; apply Hn; right; exact Hin).
        apply IH in Hx. discriminate Hx.
      * split; [|reflexivity]. intros _ [Hy|Hin]; [congruence|].
        revert Hin. apply IH. reflexivity.
Qed.

(** X15: where [insert] puts an element.  With no anchor it goes to the
    end; with an anchor that is among the children, right before the
    first occurrence of the anchor; with an anchor that is not, the
    call raises and nothing is inserted. *)
Theorem insert_position (el : nat) (children : list nat) :
  CustomElementRenderer.insert el children None = Some (children ++ [el])
  /\ (forall anchor, In anchor children ->
        exists l1 l2,
          children = l1 ++ anchor :: l2 /\ ~ In anchor l1
          /\ CustomElementRenderer.insert el children (Some anchor)
             = Some (l1 ++ el :: anchor :: l2))
  /\ (forall anchor, ~ In anchor children ->
        CustomElementRenderer.insert el children (Some anchor) = None).
Proof.
  split_and!.
  - unfold CustomElementRenderer.insert. cbn.
    rewrite take_ge, drop_ge by lia. reflexivity.
  - intros anchor Hin.
    destruct (CustomElementRenderer.index anchor children) as [i|] eqn:Ei.
    + destruct (index_split _ _ _ Ei) as (l1 & l2 & -> & Hn & Hl).
      exists l1, l2. split_and!; [reflexivity|exact Hn|].
      unfold CustomElementRenderer.insert. rewrite Ei. cbn. subst i.
      rewrite take_app_length, drop_app_length. reflexivity.
    + apply index_absent in Ei. contradiction.
  - intros anchor Hn. apply index_absent in Hn.
    unfold CustomElementRenderer.insert. rewrite Hn. reflexivity.
Qed.

Lemma remove_absent (el : nat) (children : list nat) :
  ~ In el children -> CustomElementRenderer.remove el children = None.
Proof.
  induction children as [|y cs IH]; intros Hn; [reflexivity|].
  cbn [CustomElementRenderer.remove].
  destruct (y =? el)%nat eqn:E.
  - apply Nat.eqb_eq in E. exfalso. apply Hn. left. exact E.
  - rewrite IH; [reflexivity|]. intros Hin. apply Hn. right. exact Hin.
Qed.

Lemma remove_first (el : nat) (l1 l2 : list nat) :
  ~ In el l1 -> CustomElementRenderer.remove el (l1 ++ el :: l2) = Some (l1 ++ l2).
Proof.
  induction l1 as [|y l1 IH]; intros Hn; cbn.
  - rewrite Nat.eqb_refl. reflexivity.
  - destruct (y =? el)%nat eqn:E.
    + apply Nat.eqb_eq in E. exfalso. apply Hn. left. exact E.
    + rewrite IH; [reflexivity|]. intros Hin. apply Hn. right. exact Hin.
Qed.

(** X16: [remove] undoes [insert], once.  An element that is not among
    the children and is inserted, at the end or before an anchor, is
    taken out again by [remove], which gives the children back; a second
    [remove] of it raises, as does the removal of any element that is
    not among the children. *)
Theorem remove_after_insert (el : nat) (children inserted : list nat)
    (anchor : option nat) :
  ~ In el children ->
  CustomElementRenderer.insert el children anchor = Some inserted ->
  CustomElementRenderer.remove el inserted = Some children
  /\ CustomElementRenderer.remove el children = None.
Proof.
  intros Hn Hi. split; [|apply remove_absent; exact Hn].
  unfold CustomElementRenderer.insert in Hi.
  destruct (match anchor with
            | Some a => CustomElementRenderer.index a children
            | None => Some (List.length children)
            end) as [idx|]; [|discriminate Hi].
  cbn in Hi. injection Hi as <-.
  rewrite remove_first.
  - rewrite take_drop. reflexivity.
  - intros Hin. apply Hn. apply list_elem_of_In.
    apply list_elem_of_In in Hin. exact (subseteq_take idx children el Hin).
Qed.

(** * The name lookup injected into components *)

Lemma cache_get_app_miss (name : string) (m : Lookup.method)
    (cache : list (string * Lookup.method)) :
  Lookup.cache_get name cache = None ->
  Lookup.cache_get name (cache ++ [(name, m)]) = Some m.
Proof.
  induction cache as [|[k m'] cache IH]; cbn; intros H.
  - rewrite String.eqb_refl. reflexivity.
  - destruct (String.eqb k name); [discriminate H|]. apply IH. exact H.
Qed.

Lemma dict_mem_lookup (name : string) (d : dict) :
  dict_mem name d = match dict_lookup name d with Some _ => true | None => false end.
Proof.
  unfold dict_mem. destruct (dict_lookup name d).
  - apply bool_decide_eq_true. eexists. reflexivity.
  - apply bool_decide_eq_false. intros [x Hx]. discriminate Hx.
Qed.

Lemma lookup_from_props (globals : dict) (self : Lookup.component)
    (name : string) (v : value) (cache : list (string * Lookup.method)) :
  Lookup.cache_get name cache = None ->
  dict_lookup name (Lookup.c_props self) = Some v ->
  Lookup._lookup 2 globals self name cache
  = Lookup.Returns (v, cache ++ [(name, Lookup.props_lookup)]).
Proof.
  intros Hmiss Hv. cbn [Lookup._lookup]. rewrite Hmiss, dict_mem_lookup, Hv.
  rewrite (cache_get_app_miss _ _ _ Hmiss). cbn [Lookup.call].
  unfold Lookup.subscript. rewrite Hv. reflexivity.
Qed.

(** X17: a name that is not yet in the cache is looked for in the
    props, then in the state, then among the attributes of the
    component, then among the globals; the first place that has it
    gives the value and is written into the cache for that name; a
    name found nowhere raises [NameError] and leaves no entry. *)
Theorem lookup_resolution_order (fuel : nat) (globals : dict)
    (self : Lookup.component) (name : string)
    (cache : list (string * Lookup.method)) :
  Lookup.cache_get name cache = None ->
  Lookup._lookup (S (S fuel)) globals self name cache
  = match dict_lookup name (Lookup.c_props self),
          dict_lookup name (Lookup.c_state self),
          dict_lookup name (Lookup.c_attrs self),
          dict_lookup name globals with
    | Some v, _, _, _ =>
        Lookup.Returns (v, cache ++ [(name, Lookup.props_lookup)])
    | None, Some v, _, _ =>
        Lookup.Returns (v, cache ++ [(name, Lookup.state_lookup)])
    | None, None, Some v, _ =>
        Lookup.Returns (v, cache ++ [(name, Lookup.self_lookup)])
    | None, None, None, Some v =>
        Lookup.Returns (v, cache ++ [(name, Lookup.global_lookup)])
    | None, None, None, None => Lookup.Raises Lookup.NameError
    end.
Proof.
  intros Hmiss. cbn [Lookup._lookup]. rewrite Hmiss.
  rewrite !dict_mem_lookup.
  destruct (dict_lookup name (Lookup.c_props self)) as [v1|] eqn:E1;
    [|destruct (dict_lookup name (Lookup.c_state self)) as [v2|] eqn:E2;
      [|destruct (dict_lookup name (Lookup.c_attrs self)) as [v3|] eqn:E3;
        [|destruct (dict_lookup name globals) as [v4|] eqn:E4]]];
    try reflexivity;
    rewrite (cache_get_app_miss _ _ _ Hmiss); unfold Lookup.call, Lookup.subscript;
    rewrite ?E1, ?E2, ?E3, ?E4; reflexivity.
Qed.

(** X18: the cache is shared by all components and keyed by the name
    alone.  Once a name was found in the props of one component, any
    component whose props lack the name gets [KeyError] for it, also
    when its state, its attributes or the globals have the name. *)
Theorem lookup_cache_is_shared (globals : dict) (first : Lookup.component)
    (name : string) (v : value) (cache : list (string * Lookup.method)) :
  Lookup.cache_get name cache = None ->
  dict_lookup name (Lookup.c_props first) = Some v ->
  exists cache',
    Lookup._lookup 2 globals first name cache = Lookup.Returns (v, cache')
    /\ forall fuel globals' other,
         dict_lookup name (Lookup.c_props other) = None ->
         Lookup._lookup (S fuel) globals' other name cache'
         = Lookup.Raises Lookup.KeyError.
Proof.
  intros Hmiss Hv. exists (cache ++ [(name, Lookup.props_lookup)]). split.
  - apply lookup_from_props; assumption.
  - intros fuel globals' other Hno. cbn [Lookup._lookup].
    rewrite (cache_get_app_miss _ _ _ Hmiss). cbn [Lookup.call].
    unfold Lookup.subscript. rewrite Hno. reflexivity.
Qed.

(** * The added properties on the programs above *)

(** The state a terminating run ends in, by evaluation. *)
Ltac run_state t :=
  let v := eval vm_compute in t in
  lazymatch v with Ok ?x => exact x end.

Lemma create_element_twice_loses_key_witness :
  [[("key", VStr "a"); ("content", VStr "a")]] !! 0%nat
    = Some [("key", VStr "a"); ("content", VStr "a")]
  /\ exists v1 st1 v2 st2,
       Element.create_element (Tag "item") (Some 0%nat) []
         [[("key", VStr "a"); ("content", VStr "a")]] = Some (v1, st1)
       /\ Element.create_element (Tag "item") (Some 0%nat) [] st1
          = Some (v2, st2)
       /\ key v1 = Some (VStr "a")
       /\ key v2 = None.
Proof.
  split; [reflexivity|].
  destruct (create_element_twice_loses_key (Tag "item") (Tag "item") 0 [] []
              [[("key", VStr "a"); ("content", VStr "a")]]
              [("key", VStr "a"); ("content", VStr "a")] eq_refl)
    as (v1 & st1 & v2 & st2 & H1 & H2 & K1 & K2 & _).
  exists v1, st1, v2, st2. split_and!; assumption.
Defined.

Lemma render_phase_calls_are_fresh_witness :
  exists s s',
    run demo still 64
      [Render (h (Comp 0) [("items", VStr "ab")] []) (Container 0) None] init
      = Ok s
    /\ work_loop_while demo still 64 16000000 false s = Ok s'
    /\ host s' = [CreateElement (Node 0) (Tag "items");
                  SetAttribute (Node 0) "items" (VStr "ab");
                  CreateElement (Node 1) (Tag "item");
                  SetAttribute (Node 1) "content" (VStr "a");
                  CreateElement (Node 2) (Tag "item");
                  SetAttribute (Node 2) "content" (VStr "b")]
    /\ exists ops,
         host s' = host s ++ ops
         /\ (next_handle s <= next_handle s')%nat
         /\ Forall (fun o => fresh_op (next_handle s) (next_handle s') o = true)
              ops.
Proof.
  eexists _, _.
  split; [vm_compute; reflexivity|].
  split; [vm_compute; reflexivity|].
  split; [vm_compute; reflexivity|].
  refine (render_phase_calls_are_fresh demo still 64 16000000 _ _ _).
  vm_compute. reflexivity.
Defined.

Lemma run_never_cancels_watchers_witness :
  exists s',
    run demo still 64
      [Render (h (Comp 1) [] []) (Container 0) None; TimerTimeout;
       StateUpdated; TimerTimeout;
       Render (h (Tag "label") [] []) (Container 0) None; TimerTimeout] init
    = Ok s'
    /\ watchers s' = [true; true]
    /\ (exists l, watchers s' = watchers init ++ l)
    /\ Forall (fun b => b = true) (watchers s').
Proof.
  pose (s' := ltac:(run_state (run demo still 64
      [Render (h (Comp 1) [] []) (Container 0) None; TimerTimeout;
       StateUpdated; TimerTimeout;
       Render (h (Tag "label") [] []) (Container 0) None; TimerTimeout] init))).
  exists s'.
  split; [vm_compute; reflexivity|].
  split; [vm_compute; reflexivity|].
  refine (run_never_cancels_watchers demo still 64
            [Render (h (Comp 1) [] []) (Container 0) None; TimerTimeout;
             StateUpdated; TimerTimeout;
             Render (h (Tag "label") [] []) (Container 0) None; TimerTimeout]
            init s' _ _).
  - apply Forall_nil. exact I.
  - vm_compute. reflexivity.
Defined.

Lemma run_keeps_fibers_witness :
  exists s s',
    run demo still 64
      [Render (h (Tag "group") [] [h (Tag "mesh") [] []]) (Container 0) None;
       TimerTimeout] init = Ok s
    /\ run demo still 64
         [Render (h (Tag "scene") [] []) (Container 0) None; TimerTimeout] s
       = Ok s'
    /\ f_dom <$> heap s !! 1%nat = Some (Some (Node 0))
    /\ exists f',
         heap s' !! 1%nat = Some f'
         /\ f_type f' = Some (Tag "group")
         /\ f_dom f' = Some (Node 0)
         /\ f_effect_tag f' = Some DELETION.
Proof.
  pose (s := ltac:(run_state (run demo still 64
      [Render (h (Tag "group") [] [h (Tag "mesh") [] []]) (Container 0) None;
       TimerTimeout] init))).
  pose (s' := ltac:(run_state (run demo still 64
      [Render (h (Tag "scene") [] []) (Container 0) None; TimerTimeout] s))).
  exists s, s'.
  split; [vm_compute; reflexivity|].
  split; [vm_compute; reflexivity|].
  split; [vm_compute; reflexivity|].
  edestruct (run_keeps_fibers demo still 64
               [Render (h (Tag "scene") [] []) (Container 0) None; TimerTimeout]
               s s' 1%nat)
    as (f' & Hf & Ht & _ & _ & _ & _ & Hd).
  - vm_compute. reflexivity.
  - vm_compute. reflexivity.
  - exists f'. split; [exact Hf|]. split; [exact Ht|].
    split; [apply Hd; reflexivity|].
    vm_compute in Hf. injection Hf as <-. reflexivity.
Defined.


Lemma reconcile_children_first_render_witness :
  exists s s',
    run demo still 64
      [Render (h (Tag "items") [] []) (Container 0) None] init = Ok s
    /\ reconcile_children 2 0 [item "a"; item "b"] s = Ok s'
    /\ heap s' !! 1%nat = Some (placement 0 (item "a") (Some 2%nat))
    /\ heap s' !! 2%nat = Some (placement 0 (item "b") None)
    /\ f_child <$> heap s' !! 0%nat = Some (Some 1%nat)
    /\ deletions s' = [].
Proof.
  pose (s := ltac:(run_state (run demo still 64
      [Render (h (Tag "items") [] []) (Container 0) None] init))).
  edestruct (reconcile_children_first_render 2 0 [item "a"; item "b"] s)
    as (s' & Hr & Hlen & Hdel & Hnew & Hwip & Hold).
  - vm_compute. reflexivity.
  - reflexivity.
  - cbn. lia.
  - exists s, s'.
    split; [vm_compute; reflexivity|].
    split; [exact Hr|].
    split; [exact (Hnew 0%nat (item "a") eq_refl)|].
    split; [exact (Hnew 1%nat (item "b") eq_refl)|].
    split; [rewrite Hwip; reflexivity|exact Hdel].
Defined.

Lemma reconcile_children_emptied_witness :
  exists s next s1 s',
    run demo still 64
      [Render (h (Tag "items") [] [item "a"; item "b"]) (Container 0) None;
       TimerTimeout;
       Render (h (Tag "items") [] []) (Container 0) None] init = Ok s
    /\ perform_unit_of_work demo 64 4 s = Ok (next, s1)
    /\ f_alternate <$> heap s1 !! 5%nat = Some (Some 1%nat)
    /\ reconcile_children 2 5 [] s1 = Ok s'
    /\ deletions s' = [2; 3]%nat
    /\ f_effect_tag <$> heap s' !! 2%nat = Some (Some DELETION)
    /\ f_effect_tag <$> heap s' !! 3%nat = Some (Some DELETION)
    /\ f_child <$> heap s' !! 5%nat = Some None
    /\ List.length (heap s') = 6%nat.
Proof.
  pose (s := ltac:(run_state (run demo still 64
      [Render (h (Tag "items") [] [item "a"; item "b"]) (Container 0) None;
       TimerTimeout;
       Render (h (Tag "items") [] []) (Container 0) None] init))).
  pose (p := ltac:(run_state (perform_unit_of_work demo 64 4 s))).
  edestruct (reconcile_children_emptied 2 5 1 (snd p)) with (l := [2; 3]%nat)
    as (s' & Hr & Hdel & Hlen & Hlook).
  - vm_compute. reflexivity.
  - reflexivity.
  - vm_compute. reflexivity.
  - cbn. split; [reflexivity|]. eexists. split; [reflexivity|].
    split; [eexists; reflexivity|]. cbn. split; [reflexivity|].
    eexists. split; [reflexivity|]. split; [eexists; reflexivity|]. reflexivity.
  - cbn. lia.
  - exists s, (fst p), (snd p), s'.
    split; [vm_compute; reflexivity|].
    split; [vm_compute; reflexivity|].
    split; [vm_compute; reflexivity|].
    split; [exact Hr|]. split; [exact Hdel|].
    split; [erewrite Hlook by (vm_compute; reflexivity); reflexivity|].
    split; [erewrite Hlook by (vm_compute; reflexivity); reflexivity|].
    split; [erewrite Hlook by (vm_compute; reflexivity); reflexivity|].
    exact Hlen.
Defined.

Lemma commit_root_effect_witness :
  exists s mid s',
    run demo still 64
      [Render (h (Tag "group") [] [h (Tag "mesh") [] []]) (Container 0) None]
      init = Ok s
    /\ work_loop_while demo still 64 16000000 false s = Ok mid
    /\ commit_root 64 mid = Ok s'
    /\ s' = set_wip_root None
              (set_current_root (Some 0%nat)
                 (emit [Add (Container 0) (Node 0); Add (Node 0) (Node 1)] mid)).
Proof.
  pose (s := ltac:(run_state (run demo still 64
      [Render (h (Tag "group") [] [h (Tag "mesh") [] []]) (Container 0) None]
      init))).
  pose (mid := ltac:(run_state
      (work_loop_while demo still 64 16000000 false s))).
  pose (s' := ltac:(run_state (commit_root 64 mid))).
  exists s, mid, s'.
  split; [vm_compute; reflexivity|].
  split; [vm_compute; reflexivity|].
  split; [vm_compute; reflexivity|].
  destruct (commit_root_effect 64 mid s')
    as (w & root & ops1 & ops2 & Hw & Hr & H1 & H2 & Hs).
  - vm_compute. reflexivity.
  - vm_compute in Hw. injection Hw as <-.
    vm_compute in Hr. injection Hr as <-.
    vm_compute in H1. injection H1 as <-.
    vm_compute in H2. injection H2 as <-.
    exact Hs.
Defined.

Lemma commit_deletion_removes_first_host_witness :
  exists s s',
    run demo still 64
      [Render (h (Comp 1) [] []) (Container 0) None; TimerTimeout] init = Ok s
    /\ f_dom <$> heap s !! 1%nat = Some None
    /\ f_dom <$> heap s !! 2%nat = Some (Some (Node 0))
    /\ commit_deletion 64 1 (Container 0) s = Ok s'
    /\ s' = emit [Remove (Container 0) (Node 0)] s.
Proof.
  pose (s := ltac:(run_state (run demo still 64
      [Render (h (Comp 1) [] []) (Container 0) None; TimerTimeout] init))).
  pose (s' := ltac:(run_state (commit_deletion 64 1 (Container 0) s))).
  exists s, s'.
  split; [vm_compute; reflexivity|].
  split; [vm_compute; reflexivity|].
  split; [vm_compute; reflexivity|].
  split; [vm_compute; reflexivity|].
  destruct (commit_deletion_removes_first_host 64 1 (Container 0) s s')
    as (dom & _ & Hs & _).
  - vm_compute. reflexivity.
  - vm_compute in Hs. injection Hs as <-. vm_compute. reflexivity.
Defined.

Lemma commit_work_preorder_witness :
  exists s mid root,
    run demo still 64
      [Render (h (Comp 0) [("items", VStr "ab")] []) (Container 0) None] init
      = Ok s
    /\ work_loop_while demo still 64 16000000 false s = Ok mid
    /\ heap mid !! 0%nat = Some root
    /\ flat_map (commit_ops mid (Container 0)) [FT 1 [FT 2 [FT 3 []; FT 4 []]]]
       = [Add (Container 0) (Node 0); Add (Node 0) (Node 1);
          Add (Node 0) (Node 2)]
    /\ exists n, forall fuel s0, (n <= fuel)%nat -> heap s0 = heap mid ->
         commit_work fuel (f_child root) s0
         = Ok (emit (flat_map (commit_ops mid (Container 0))
                       [FT 1 [FT 2 [FT 3 []; FT 4 []]]]) s0).
Proof.
  eexists _, _, _.
  split; [vm_compute; reflexivity|].
  split; [vm_compute; reflexivity|].
  split; [vm_compute; reflexivity|].
  split; [vm_compute; reflexivity|].
  refine (commit_work_preorder _ 0 [FT 1 [FT 2 [FT 3 []; FT 4 []]]] _
            (Container 0) _ _ _ _).
  - vm_compute. reflexivity.
  - vm_compute. reflexivity.
  - vm_compute. reflexivity.
  - vm_compute. reflexivity.
Defined.

Lemma insert_position_witness :
  In 2%nat [1; 2; 3]%nat
  /\ CustomElementRenderer.insert 9 [1; 2; 3]%nat (Some 2%nat)
     = Some [1; 9; 2; 3]%nat
  /\ CustomElementRenderer.insert 9 [1; 2; 3]%nat None = Some [1; 2; 3; 9]%nat.
Proof.
  split; [simpl; tauto|].
  destruct (insert_position 9 [1; 2; 3]%nat) as (Hend & Hanchor & _).
  split; [|exact Hend].
  destruct (Hanchor 2%nat) as (l1 & l2 & _ & _ & Hi).
  - simpl. tauto.
  - reflexivity.
Defined.

Lemma remove_after_insert_witness :
  ~ In 9%nat [1; 2; 3]%nat
  /\ CustomElementRenderer.insert 9 [1; 2; 3]%nat (Some 2%nat)
     = Some [1; 9; 2; 3]%nat
  /\ CustomElementRenderer.remove 9 [1; 9; 2; 3]%nat = Some [1; 2; 3]%nat
  /\ CustomElementRenderer.remove 9 [1; 2; 3]%nat = None.
Proof.
  assert (Hn : ~ In 9%nat [1; 2; 3]%nat).
  { simpl. intros [H|[H|[H|[]]]]; discriminate H. }
  split; [exact Hn|]. split; [reflexivity|].
  exact (remove_after_insert 9 [1; 2; 3]%nat [1; 9; 2; 3]%nat (Some 2%nat)
           Hn eq_refl).
Defined.

Lemma lookup_resolution_order_witness :
  Lookup.cache_get "count" [("step", Lookup.props_lookup)] = None
  /\ Lookup._lookup 2 [("count", VInt 9)]
       (Lookup.mkComponent [("step", VInt 1)] [("count", VInt 3)] [])
       "count" [("step", Lookup.props_lookup)]
     = Lookup.Returns
         (VInt 3, [("step", Lookup.props_lookup); ("count", Lookup.state_lookup)]).
Proof.
  split; [reflexivity|].
  rewrite (lookup_resolution_order 0 [("count", VInt 9)]
             (Lookup.mkComponent [("step", VInt 1)] [("count", VInt 3)] [])
             "count" [("step", Lookup.props_lookup)] eq_refl).
  reflexivity.
Defined.

Lemma lookup_cache_is_shared_witness :
  exists cache',
    Lookup._lookup 2 []
      (Lookup.mkComponent [("count", VInt 1)] [] []) "count" []
    = Lookup.Returns (VInt 1, cache')
    /\ Lookup._lookup 1 []
         (Lookup.mkComponent [] [("count", VInt 3)] []) "count" cache'
       = Lookup.Raises Lookup.KeyError.
Proof.
  destruct (lookup_cache_is_shared []
              (Lookup.mkComponent [("count", VInt 1)] [] []) "count" (VInt 1) []
              eq_refl eq_refl) as (cache' & H1 & H2).
  exists cache'. split; [exact H1|].
  apply H2. reflexivity.
Defined.
